(** * pay_loader: a shallow embedding of the multi-source payer loader

    The program is one linear pipeline over a pandas DataFrame:
    [prepare_dataframe] (input resolution, dispatched on the input type),
    [transform_data] (ingestion timestamp and payer-specific pricing) and
    [PayerLoader.load] (destination label and row count), sequenced by
    [main].

    Python objects that the code mutates (DataFrames) live in a heap and are
    handled through locations; printing, file access and the wall clock
    are effects of a small state-and-exception monad. *)

From Stdlib Require Import ZArith String Ascii List Lia DecimalString DecimalNat.
From Stdlib Require Import Floats.PrimFloat Floats.SpecFloat Floats.FloatOps.
From stdpp Require Import base option list.
Import ListNotations.

Local Open Scope string_scope.
Local Open Scope list_scope.
Local Open Scope nat_scope.
Local Set Warnings "-inexact-float".

(** ** Strings *)

Module PyStr.

(** [str.lower] on the ASCII letters. Strings are byte strings here and the
    bytes outside ASCII are left alone. Python lower-cases letters outside
    ASCII as well, but the only one whose lower case is an ASCII string is
    the Kelvin sign (to k), so the comparisons of the program, with
    "anthem", "cigna" and "manual", come out as in Python. *)
Definition lower_ascii (c : ascii) : ascii :=
  let n := nat_of_ascii c in
  if (65 <=? n) && (n <=? 90) then ascii_of_nat (n + 32) else c.

Fixpoint lower (s : string) : string :=
  match s with
  | EmptyString => EmptyString
  | String c s' => String (lower_ascii c) (lower s')
  end.

(** [str(n)] for a non-negative integer, as an f-string renders it. *)
Definition of_nat (n : nat) : string :=
  NilEmpty.string_of_uint (Nat.to_uint n).

(** [str.swapcase] on one ASCII character. *)
Definition swapcase_ascii (c : ascii) : ascii :=
  let n := nat_of_ascii c in
  if (65 <=? n) && (n <=? 90) then ascii_of_nat (n + 32)
  else if (97 <=? n) && (n <=? 122) then ascii_of_nat (n - 32)
  else c.

(** Two strings that differ at most in the case of their ASCII letters. *)
Fixpoint case_variant (s t : string) : bool :=
  match s, t with
  | EmptyString, EmptyString => true
  | String c s', String d t' =>
      (Ascii.eqb c d || Ascii.eqb (swapcase_ascii c) d) && case_variant s' t'
  | _, _ => false
  end.

End PyStr.

(** ** Values, series and frames *)

(** A cell of a frame. A missing value is the float NaN, as in pandas. *)
Inductive value : Type :=
| VInt (z : Z)
| VFloat (f : float)
| VBool (b : bool)
| VStr (s : string)
| VTimestamp (t : Z).

Definition NaN : value := VFloat nan.

Abbreviation Series := (list value).

(** A DataFrame: the length of its index and its columns in order. *)
Record DataFrame : Type := mkDataFrame {
  nrows : nat;
  columns : list (string * Series)
}.

(** [len(df)] *)
Definition len (df : DataFrame) : nat := nrows df.

Definition column_names (df : DataFrame) : list string := map fst (columns df).

Fixpoint assoc {A : Type} (k : string) (l : list (string * A)) : option A :=
  match l with
  | [] => None
  | (k', v) :: l' => if String.eqb k k' then Some v else assoc k l'
  end.

(** Assignment to a key: in place when the key exists, appended otherwise. *)
Fixpoint assoc_set {A : Type} (k : string) (v : A) (l : list (string * A))
  : list (string * A) :=
  match l with
  | [] => [(k, v)]
  | (k', v') :: l' =>
      if String.eqb k k' then (k', v) :: l' else (k', v') :: assoc_set k v l'
  end.

Definition get_column (df : DataFrame) (c : string) : option Series :=
  assoc c (columns df).

Definition set_column (df : DataFrame) (c : string) (s : Series) : DataFrame :=
  {| nrows := nrows df; columns := assoc_set c s (columns df) |}.

(** The cell of column [c] on row [i]. *)
Definition cell (df : DataFrame) (c : string) (i : nat) : option value :=
  match get_column df c with
  | Some s => s !! i
  | None => None
  end.

(** Every column is as long as the index. *)
Definition well_formed (df : DataFrame) : Prop :=
  Forall (fun c => length (snd c) = nrows df) (columns df).

(** ** Exceptions *)

(** The Python exceptions the program can end with. The spec's
    MissingColumnError is [KeyError], its TypeMismatchError and
    UnsupportedInputError are [TypeError], its MissingArgumentError is
    [ValueError], and its DataSourceError is whatever [read_csv] raises. *)
Inductive exn : Type :=
| KeyError (key : string)
| TypeError (msg : string)
| ValueError (msg : string)
| OverflowError (msg : string)
| OSError (msg : string)
| ParserError (msg : string)
| SystemExit (code : Z).

(** ** Numbers *)

Module Num.

(** Conversion of an integer to a double, rounding to nearest even. *)
Definition Z2float (z : Z) : float :=
  SF2Prim (binary_normalize prec emax z 0 false).

(** The integers from [2^1024 - 2^970] on round to infinity; Python
    raises OverflowError for them instead. *)
Definition float_int_limit : Z := 2 ^ 1024 - 2 ^ 970.

Definition int64_min : Z := - 2 ^ 63.
Definition int64_max : Z := 2 ^ 63 - 1.

Definition is_int64 (z : Z) : bool :=
  (int64_min <=? z)%Z && (z <=? int64_max)%Z.

(** [x * k] for a cell [x] and a float [k]. *)
Definition mul_float (x : value) (k : float) : exn + value :=
  match x with
  | VInt z =>
      if (Z.abs z <? float_int_limit)%Z
      then inr (VFloat (Z2float z * k)%float)
      else inl (OverflowError "int too large to convert to float")
  | VFloat f => inr (VFloat (f * k)%float)
  | VBool b => inr (VFloat ((if b then one else zero) * k)%float)
  | VStr _ => inl (TypeError "can't multiply sequence by non-int of type 'float'")
  | VTimestamp _ =>
      inl (TypeError "unsupported operand type(s) for *: 'Timestamp' and 'float'")
  end.

(** [series * k], cell by cell from the first row on. *)
Fixpoint Series_mul (s : Series) (k : float) : exn + Series :=
  match s with
  | [] => inr []
  | x :: s' =>
      match mul_float x k with
      | inl e => inl e
      | inr y =>
          match Series_mul s' k with
          | inl e => inl e
          | inr t => inr (y :: t)
          end
      end
  end.

(** The numeric cells: what an int64, float64 or bool column holds. *)
Definition numeric (x : value) : bool :=
  match x with
  | VInt z => is_int64 z
  | VFloat _ => true
  | VBool _ => true
  | VStr _ => false
  | VTimestamp _ => false
  end.

(** The cells that are no numbers at all: text and timestamps. *)
Definition non_numeric (x : value) : bool :=
  match x with
  | VStr _ => true
  | VTimestamp _ => true
  | _ => false
  end.

(** A numeric cell as a double. *)
Definition to_float (x : value) : float :=
  match x with
  | VInt z => Z2float z
  | VFloat f => f
  | VBool b => if b then one else zero
  | _ => nan
  end.

(** A numeric cell multiplied by [k]. *)
Definition scale (k : float) (x : value) : value :=
  VFloat (to_float x * k)%float.

End Num.

(** ** The machine: heap, output, clock *)

Abbreviation loc := nat.

Inductive event : Type :=
| Print (line : string)      (* a line on standard output *)
| Open (path : string)       (* a file opened for reading *)
| Usage.                     (* argparse's usage message on standard error *)

(** The files a trace has opened, in order. *)
Fixpoint opened (t : list event) : list string :=
  match t with
  | [] => []
  | Open path :: t' => path :: opened t'
  | _ :: t' => opened t'
  end.

Record State : Type := mkState {
  heap : list DataFrame;
  trace : list event;
  ticks : nat                (* how often the clock has been read *)
}.

Inductive result (A : Type) : Type :=
| Returns (a : A)
| Raises (e : exn)
| Stuck.                     (* a location that was never allocated *)
Arguments Returns {A} a.
Arguments Raises {A} e.
Arguments Stuck {A}.

Definition M (A : Type) : Type := State -> result A * State.

Definition ret {A} (a : A) : M A := fun st => (Returns a, st).

Definition bind {A B} (m : M A) (k : A -> M B) : M B :=
  fun st =>
    match m st with
    | (Returns a, st') => k a st'
    | (Raises e, st') => (Raises e, st')
    | (Stuck, st') => (Stuck, st')
    end.

Definition raise {A} (e : exn) : M A := fun st => (Raises e, st).

Notation "'let*' x ':=' m 'in' k" := (bind m (fun x => k))
  (at level 10, x name, m at level 100, k at level 200).
Notation "'run' m 'in' k" := (bind m (fun _ => k))
  (at level 10, m at level 100, k at level 200).

Definition lift {A} (r : exn + A) : M A :=
  match r with
  | inl e => raise e
  | inr a => ret a
  end.

Definition print (line : string) : M unit :=
  fun st => (Returns tt,
             {| heap := heap st; trace := trace st ++ [Print line];
                ticks := ticks st |}).

Definition alloc (df : DataFrame) : M loc :=
  fun st => (Returns (length (heap st)),
             {| heap := heap st ++ [df]; trace := trace st;
                ticks := ticks st |}).

Definition deref (l : loc) : M DataFrame :=
  fun st =>
    match heap st !! l with
    | Some df => (Returns df, st)
    | None => (Stuck, st)
    end.

Definition store (l : loc) (df : DataFrame) : M unit :=
  fun st => (Returns tt,
             {| heap := <[l := df]> (heap st); trace := trace st;
                ticks := ticks st |}).

(** ** pandas *)

Module pd.

(** [df.copy()]: a new frame with the same data. *)
Definition copy (l : loc) : M loc :=
  let* df := deref l in alloc df.

(** [df[c]] *)
Definition getitem (l : loc) (c : string) : M Series :=
  let* df := deref l in
  match get_column df c with
  | Some s => ret s
  | None => raise (KeyError c)
  end.

(** [df[c] = s] for a series [s] over the index of [df]. *)
Definition setitem (l : loc) (c : string) (s : Series) : M unit :=
  let* df := deref l in store l (set_column df c s).

(** [df[c] = v] for a scalar [v], which every row receives. *)
Definition setitem_scalar (l : loc) (c : string) (v : value) : M unit :=
  let* df := deref l in store l (set_column df c (replicate (len df) v)).

(** A row given as a dict, in insertion order. *)
Abbreviation record := (list (string * value)).

Fixpoint add_keys (seen : list string) (ks : list string) : list string :=
  match ks with
  | [] => seen
  | k :: ks' =>
      if existsb (String.eqb k) seen then add_keys seen ks'
      else add_keys (seen ++ [k]) ks'
  end.

(** The union of the keys, in order of first appearance. *)
Definition keys_union (rows : list record) : list string :=
  fold_left (fun seen r => add_keys seen (map fst r)) rows [].

Definition is_float (x : value) : bool :=
  match x with VFloat _ => true | _ => false end.

Definition int_or_float (x : value) : bool :=
  match x with
  | VInt z => Num.is_int64 z
  | VFloat _ => true
  | _ => false
  end.

(** A column of integers and floats becomes a float64 column. *)
Definition infer (s : Series) : Series :=
  if forallb int_or_float s && existsb is_float s
  then map (fun x => VFloat (Num.to_float x)) s
  else s.

Definition column_of (rows : list record) (k : string) : Series :=
  infer (map (fun r => default NaN (assoc k r)) rows).

(** [pd.DataFrame(rows)] for a list of dicts: one row per dict, a column
    per key, and NaN where a dict lacks the key. *)
Definition DataFrame_of (rows : list record) : DataFrame :=
  {| nrows := length rows;
     columns := map (fun k => (k, column_of rows k)) (keys_union rows) |}.

End pd.

(** ** The program *)

(** *** Input resolution *)

Section Input.

(** [pd.read_csv] on the file system of the run: the frame parsed from the
    file at a path, or the exception raised for it. *)
Variable read_csv : string -> exn + DataFrame.

Definition pd_read_csv (path : string) : M loc :=
  fun st =>
    let st' := {| heap := heap st; trace := trace st ++ [Open path];
                  ticks := ticks st |} in
    match read_csv path with
    | inl e => (Raises e, st')
    | inr df => alloc df st'
    end.

(** What [prepare_dataframe] can be called with: a [str], a [list] (of
    dicts), or an object of another type. *)
Inductive input_data : Type :=
| PyString (s : string)
| PyList (rows : list pd.record)
| PyOther.

Definition prepare_dataframe (input : input_data) : M loc :=
  match input with
  | PyString path =>
      run print ("Reading data from file: " ++ path) in
      pd_read_csv path
  | PyList rows =>
      run print "Reading data from manual input list" in
      alloc (pd.DataFrame_of rows)
  | PyOther =>
      raise (TypeError "Unsupported input type for prepare_dataframe")
  end.

End Input.

(** *** Data processing *)

Definition fee_anthem : float := 1.10%float.
Definition discount_cigna : float := 0.95%float.

Section Transform.

(** The wall clock: the time shown at the n-th reading. *)
Variable clock : nat -> Z.

(** [datetime.now()] *)
Definition datetime_now : M Z :=
  fun st => (Returns (clock (ticks st)),
             {| heap := heap st; trace := trace st; ticks := S (ticks st) |}).

Definition transform_data (df : loc) (payer : string) : M loc :=
  let* df := pd.copy df in
  let* now := datetime_now in
  run pd.setitem_scalar df "ingestion_timestamp" (VTimestamp now) in
  run (if String.eqb (PyStr.lower payer) "anthem" then
         let* amount := pd.getitem df "claim_amount" in
         let* scaled := lift (Num.Series_mul amount fee_anthem) in
         pd.setitem df "claim_amount" scaled
       else if String.eqb (PyStr.lower payer) "cigna" then
         let* amount := pd.getitem df "claim_amount" in
         let* scaled := lift (Num.Series_mul amount discount_cigna) in
         pd.setitem df "claim_amount" scaled
       else ret tt) in
  ret df.

End Transform.

(** The factor of the payer's branch, if the payer has one. *)
Definition payer_factor (payer : string) : option float :=
  if String.eqb (PyStr.lower payer) "anthem" then Some fee_anthem
  else if String.eqb (PyStr.lower payer) "cigna" then Some discount_cigna
  else None.

(** The copy of [df] with its ingestion timestamp set to [now]. *)
Definition stamped (df : DataFrame) (now : Z) : DataFrame :=
  set_column df "ingestion_timestamp" (replicate (len df) (VTimestamp now)).

(** The state once the copy of [df] is made and stamped. *)
Definition after_stamp (st : State) (df : DataFrame) (now : Z) : State :=
  {| heap := heap st ++ [stamped df now];
     trace := trace st;
     ticks := S (ticks st) |}.

(** The state once the scaled amounts [s] are stored in the copy. *)
Definition after_pricing (st : State) (df : DataFrame) (now : Z) (s : Series)
  : State :=
  {| heap := heap st ++ [set_column (stamped df now) "claim_amount" s];
     trace := trace st;
     ticks := S (ticks st) |}.

(** The pricing law as the specification words it: times 1.10 for anthem,
    times 0.95 for cigna, the payer compared without regard to case, and
    the amount as it is for any other payer. *)
Definition pricing_law (payer : string) (x : value) : value :=
  if String.eqb (PyStr.lower payer) "anthem"
  then VFloat (Num.to_float x * 1.10)%float
  else if String.eqb (PyStr.lower payer) "cigna"
  then VFloat (Num.to_float x * 0.95)%float
  else x.

(** *** Loaders *)

Class Loader (T : Type) := load : T -> loc -> M unit.

Record BaseLoader : Type := mkBaseLoader { }.

#[export] Instance BaseLoader_load : Loader BaseLoader :=
  fun _ _ => print "Loading data...".

Record PayerLoader : Type := mkPayerLoader { payer : string }.

(** [PayerLoader(payer)] *)
Definition PayerLoader_init (p : string) : PayerLoader :=
  {| payer := PyStr.lower p |}.

Definition table_name (self : PayerLoader) : string :=
  if String.eqb (payer self) "anthem" then "SNOWFLAKE.RAW.ANTHEM_TABLE"
  else if String.eqb (payer self) "cigna" then "SNOWFLAKE.RAW.CIGNA_TABLE"
  else "SNOWFLAKE.RAW.GENERIC_CLAIMS".

#[export] Instance PayerLoader_load : Loader PayerLoader :=
  fun self df =>
    let* frame := deref df in
    run print ("Loading data into " ++ table_name self) in
    print ("Total rows: " ++ PyStr.of_nat (len frame)).

(** *** Main *)

(** The namespace [parse_args] returns. *)
Record Namespace : Type := mkNamespace {
  source : option string;
  payer_arg : string
}.

Definition choices : list string := ["anthem"; "cigna"; "manual"].

(** argparse's exit on a command line it rejects: the usage message on
    standard error, then status 2. *)
Definition usage_error {A} : M A :=
  fun st => (Raises (SystemExit 2),
             {| heap := heap st; trace := trace st ++ [Usage];
                ticks := ticks st |}).

(** The two declared options as given on the command line: [--source] is
    optional, [--payer] is required and one of [choices]. *)
Definition parse_args (source_opt payer_opt : option string) : M Namespace :=
  match payer_opt with
  | Some p =>
      if existsb (String.eqb p) choices
      then ret {| source := source_opt; payer_arg := p |}
      else usage_error
  | None => usage_error
  end.

Definition manual_data : list pd.record :=
  [ [ ("member_id", VInt 1); ("claim_id", VInt 1001);
      ("claim_amount", VInt 500); ("service_date", VStr "2024-01-10");
      ("payer_name", VStr "manual") ];
    [ ("member_id", VInt 2); ("claim_id", VInt 1002);
      ("claim_amount", VInt 800); ("service_date", VStr "2024-02-15");
      ("payer_name", VStr "manual") ] ].

(** Truthiness of [args.source]: [None] and the empty string are false. *)
Definition truthy (s : option string) : bool :=
  match s with
  | None => false
  | Some "" => false
  | Some _ => true
  end.

(** [args.source] as the Python object it is: a string, or [None]. *)
Definition py_of_option (s : option string) : input_data :=
  match s with
  | Some path => PyString path
  | None => PyOther
  end.

Section Main.

Variable clock : nat -> Z.
Variable read_csv : string -> exn + DataFrame.

Definition main (source_opt payer_opt : option string) : M unit :=
  let* args := parse_args source_opt payer_opt in
  let payer := payer_arg args in
  let* df :=
    (if String.eqb payer "manual" then
       prepare_dataframe read_csv (PyList manual_data)
     else
       run (if negb (truthy (source args)) then
              raise (ValueError
                "Source file path is required for file-based loading")
            else ret tt) in
       prepare_dataframe read_csv (py_of_option (source args))) in
  let* df := transform_data clock df payer in
  let loader := PayerLoader_init payer in
  load loader df.

End Main.

(** ** Concrete runs *)

Module Sample.

(** A clock that starts at 1000 and advances by one at every reading. *)
Definition clock (n : nat) : Z := 1000 + Z.of_nat n.

(** A file system with no file on it. *)
Definition no_files (path : string) : exn + DataFrame :=
  inl (OSError ("No such file or directory: " ++ path)).

Definition empty_state : State := {| heap := []; trace := []; ticks := 0 |}.

(** The state in which [df] is the one frame of the heap, at location 0. *)
Definition holding (df : DataFrame) : State :=
  {| heap := [df]; trace := []; ticks := 0 |}.

(** The built-in sample as a frame. *)
Definition claims : DataFrame := pd.DataFrame_of manual_data.

(** A frame with no claim_amount column. *)
Definition members : DataFrame :=
  {| nrows := 2; columns := [("member_id", [VInt 1; VInt 2])] |}.

(** A frame whose claim_amount column holds text. *)
Definition worded : DataFrame :=
  {| nrows := 2;
     columns := [("member_id", [VInt 1; VInt 2]);
                 ("claim_amount", [VInt 500; VStr "n/a"])] |}.

(** A frame that already has an ingestion_timestamp column. *)
Definition restamped : DataFrame :=
  {| nrows := 1;
     columns := [("ingestion_timestamp", [VStr "2020-01-01"]);
                 ("claim_amount", [VFloat 10])] |}.

End Sample.

(** The frame [transform_data] makes of [df] at time [now] when every
    amount can be multiplied: the stamped copy, with the amounts scaled on
    the branches that have a factor. *)
Definition transformed (df : DataFrame) (now : Z) (payer : string)
  : DataFrame :=
  match payer_factor payer, get_column df "claim_amount" with
  | Some k, Some s =>
      set_column (stamped df now) "claim_amount" (map (Num.scale k) s)
  | _, _ => stamped df now
  end.

(** Further concrete inputs. *)

Module Fixture.

(** Rows with uneven keys: the second has no amount, the third no member. *)
Definition uneven : list pd.record :=
  [ [ ("member_id", VInt 1); ("claim_amount", VInt 500) ];
    [ ("member_id", VInt 2) ];
    [ ("claim_amount", VFloat 12.5); ("note", VStr "late") ] ].

(** A file system with one file, claims.csv, holding the built-in sample,
    and one file, members.csv, whose frame has no claim_amount column. *)
Definition one_file (path : string) : exn + DataFrame :=
  if String.eqb path "claims.csv" then inr Sample.claims
  else if String.eqb path "members.csv" then inr Sample.members
  else inl (OSError ("No such file or directory: " ++ path)).

(** A state with two frames on the heap, some output and a clock that has
    been read before. *)
Definition busy : State :=
  {| heap := [Sample.members; Sample.claims];
     trace := [Print "earlier"];
     ticks := 3 |}.

End Fixture.

(** * Properties *)

(** ** Strings *)

Lemma lower_swapcase_ascii (c : ascii) :
  PyStr.lower_ascii (PyStr.swapcase_ascii c) = PyStr.lower_ascii c.
Proof. destruct c as [[] [] [] [] [] [] [] []]; reflexivity. Qed.

Lemma case_variant_lower (s t : string) :
  PyStr.case_variant s t = true -> PyStr.lower s = PyStr.lower t.
Proof.
  revert t; induction s as [|c s IH]; intros [|d t]; simpl; try discriminate.
  - reflexivity.
  - intros H. apply andb_prop in H as [Hc Hs].
    rewrite (IH _ Hs). f_equal.
    apply orb_prop in Hc as [Hc | Hc]; apply Ascii.eqb_eq in Hc; subst d.
    + reflexivity.
    + apply eq_sym, lower_swapcase_ascii.
Qed.

(** ** Columns *)

Lemma assoc_set_eq {A} (k : string) (v : A) l :
  assoc k (assoc_set k v l) = Some v.
Proof.
  induction l as [|[k' v'] l IH]; simpl.
  - now rewrite String.eqb_refl.
  - destruct (String.eqb k k') eqn:E; simpl; rewrite E; auto.
Qed.

Lemma assoc_set_ne {A} (k k' : string) (v : A) l :
  k <> k' -> assoc k' (assoc_set k v l) = assoc k' l.
Proof.
  intros Hne. induction l as [|[k0 v0] l IH]; simpl.
  - destruct (String.eqb_spec k' k); congruence.
  - destruct (String.eqb_spec k k0) as [->|]; simpl.
    + destruct (String.eqb_spec k' k0); congruence.
    + now rewrite IH.
Qed.

Lemma assoc_set_names {A} (k : string) (v : A) l :
  map fst (assoc_set k v l) =
  map fst l ++ match assoc k l with Some _ => [] | None => [k] end.
Proof.
  induction l as [|[k0 v0] l IH]; simpl; [reflexivity|].
  destruct (String.eqb k k0); simpl.
  - now rewrite app_nil_r.
  - now rewrite IH.
Qed.

Lemma assoc_set_Forall {A} (P : string * A -> Prop) k v l :
  P (k, v) -> (forall v', P (k, v') -> P (k, v)) ->
  Forall P l -> Forall P (assoc_set k v l).
Proof.
  intros Hk _ Hl. induction Hl as [|[k0 v0] l H0 Hl IH]; simpl.
  - repeat constructor; exact Hk.
  - destruct (String.eqb_spec k k0) as [->|]; constructor; auto.
Qed.

Lemma set_column_well_formed df c s :
  length s = nrows df -> well_formed df -> well_formed (set_column df c s).
Proof.
  intros Hs Hdf. unfold well_formed, set_column; simpl.
  apply assoc_set_Forall; auto.
Qed.

Lemma set_column_names df c s :
  column_names (set_column df c s) =
  column_names df ++ match get_column df c with Some _ => [] | None => [c] end.
Proof. apply assoc_set_names. Qed.

Lemma get_set_column_eq df c s :
  get_column (set_column df c s) c = Some s.
Proof. apply assoc_set_eq. Qed.

Lemma get_set_column_ne df c c' s :
  c <> c' -> get_column (set_column df c s) c' = get_column df c'.
Proof. apply assoc_set_ne. Qed.

Lemma assoc_Some_In {A} k (v : A) l : assoc k l = Some v -> In (k, v) l.
Proof.
  induction l as [|[k0 v0] l IH]; simpl; [discriminate|].
  destruct (String.eqb_spec k k0) as [->|]; intros H.
  - left. congruence.
  - right. auto.
Qed.

Lemma get_column_length df c s :
  well_formed df -> get_column df c = Some s -> length s = nrows df.
Proof.
  unfold well_formed, get_column. intros Hwf Hs.
  apply assoc_Some_In in Hs.
  rewrite List.Forall_forall in Hwf. exact (Hwf _ Hs).
Qed.

(** ** Multiplication of a series *)

Lemma int64_below_float_limit z :
  Num.is_int64 z = true -> (Z.abs z <? Num.float_int_limit)%Z = true.
Proof.
  unfold Num.is_int64, Num.int64_min, Num.int64_max, Num.float_int_limit.
  intros H. apply andb_prop in H as [H1 H2].
  apply Z.leb_le in H1. apply Z.leb_le in H2. apply Z.ltb_lt.
  assert (Hlim : (2 ^ 63 < 2 ^ 1024 - 2 ^ 970)%Z) by reflexivity.
  lia.
Qed.

Lemma mul_float_numeric x k :
  Num.numeric x = true -> Num.mul_float x k = inr (Num.scale k x).
Proof.
  unfold Num.scale. destruct x; simpl; try discriminate; auto.
  intros H. now rewrite (int64_below_float_limit _ H).
Qed.

Lemma mul_float_inr x k y : Num.mul_float x k = inr y -> y = Num.scale k x.
Proof.
  unfold Num.scale. destruct x; simpl; try discriminate; try congruence.
  destruct (Z.abs z <? Num.float_int_limit)%Z; congruence.
Qed.

Lemma Series_mul_inr s k t : Num.Series_mul s k = inr t -> t = map (Num.scale k) s.
Proof.
  revert t; induction s as [|x s IH]; simpl; intros t H.
  - congruence.
  - destruct (Num.mul_float x k) as [e|y] eqn:Ex; [discriminate|].
    destruct (Num.Series_mul s k) as [e|t'] eqn:Es; [discriminate|].
    apply mul_float_inr in Ex. specialize (IH _ eq_refl). congruence.
Qed.

Lemma Series_mul_numeric s k :
  Forall (fun x => Num.numeric x = true) s ->
  Num.Series_mul s k = inr (map (Num.scale k) s).
Proof.
  induction 1 as [|x s Hx Hs IH]; simpl; [reflexivity|].
  now rewrite (mul_float_numeric _ _ Hx), IH.
Qed.

Lemma mul_float_non_numeric x k :
  Num.non_numeric x = true -> exists msg, Num.mul_float x k = inl (TypeError msg).
Proof. destruct x; simpl; try discriminate; eauto. Qed.

Lemma Series_mul_non_numeric s k :
  Forall (fun x => Num.numeric x = true \/ Num.non_numeric x = true) s ->
  Exists (fun x => Num.non_numeric x = true) s ->
  exists msg, Num.Series_mul s k = inl (TypeError msg).
Proof.
  induction 1 as [|x s Hx Hs IH]; intros Hex.
  - inversion Hex.
  - simpl. destruct Hx as [Hx | Hx].
    + rewrite (mul_float_numeric _ _ Hx).
      inversion Hex as [? ? Hbad | ? ? Hrest]; subst.
      * destruct x; simpl in *; congruence.
      * destruct (IH Hrest) as [msg ->]. eauto.
    + destruct (mul_float_non_numeric x k Hx) as [msg ->]. eauto.
Qed.

(** ** The monad *)

Lemma bind_returns {A B} (m : M A) (k : A -> M B) st a st' :
  m st = (Returns a, st') -> bind m k st = k a st'.
Proof. unfold bind. now intros ->. Qed.

(** ** Traces *)

Lemma opened_app t u : opened (t ++ u) = opened t ++ opened u.
Proof.
  induction t as [|[line|path|] t IH]; simpl; rewrite ?IH; reflexivity.
Qed.

(** ** The heap *)

Lemma lookup_fresh (h : list DataFrame) df : (h ++ [df]) !! length h = Some df.
Proof. now apply list_lookup_middle. Qed.

Lemma insert_fresh (h : list DataFrame) df df' :
  <[length h := df']> (h ++ [df]) = h ++ [df'].
Proof.
  replace (length h) with (length h + 0) by lia.
  now rewrite insert_app_r.
Qed.

Lemma lookup_old (h : list DataFrame) df l x :
  h !! l = Some x -> (h ++ [df]) !! l = Some x.
Proof. apply lookup_app_l_Some. Qed.

(** ** transform_data, run on a frame of the heap *)

Section TransformRun.

Variable clock : nat -> Z.

Lemma transform_data_run st l df p :
  heap st !! l = Some df ->
  transform_data clock l p st =
  match payer_factor p with
  | None => (Returns (length (heap st)), after_stamp st df (clock (ticks st)))
  | Some k =>
      match get_column df "claim_amount" with
      | None => (Raises (KeyError "claim_amount"), after_stamp st df (clock (ticks st)))
      | Some s =>
          match Num.Series_mul s k with
          | inl e => (Raises e, after_stamp st df (clock (ticks st)))
          | inr s' => (Returns (length (heap st)), after_pricing st df (clock (ticks st)) s')
          end
      end
  end.
Proof.
  intros Hl.
  assert (Hget : get_column (stamped df (clock (ticks st))) "claim_amount"
                 = get_column df "claim_amount").
  { apply get_set_column_ne. discriminate. }
  unfold transform_data, payer_factor, pd.copy, pd.setitem_scalar,
    pd.getitem, pd.setitem, datetime_now, bind, deref, alloc, store, ret.
  simpl. rewrite Hl. simpl. rewrite lookup_fresh. simpl.
  rewrite insert_fresh.
  fold (stamped df (clock (ticks st))).
  destruct (String.eqb (PyStr.lower p) "anthem");
    [|destruct (String.eqb (PyStr.lower p) "cigna")];
    simpl; rewrite ?lookup_fresh; simpl; rewrite ?Hget;
    try reflexivity.
  all: destruct (get_column df "claim_amount") as [s|]; simpl;
    try reflexivity.
  all: match goal with
       | |- context [Num.Series_mul ?s ?k] =>
           destruct (Num.Series_mul s k) as [e|s']; simpl;
           rewrite ?lookup_fresh; simpl; rewrite ?insert_fresh;
           reflexivity
       end.
Qed.

End TransformRun.

(** ** The transformer *)

Section TransformClaims.

Variable clock : nat -> Z.

Lemma pricing_law_factor p x :
  pricing_law p x =
  match payer_factor p with Some k => Num.scale k x | None => x end.
Proof.
  unfold pricing_law, payer_factor, Num.scale, fee_anthem, discount_cigna.
  destruct (String.eqb (PyStr.lower p) "anthem"); [reflexivity|].
  destruct (String.eqb (PyStr.lower p) "cigna"); reflexivity.
Qed.

Lemma stamped_claim_amount df now :
  get_column (stamped df now) "claim_amount" = get_column df "claim_amount".
Proof. apply get_set_column_ne. discriminate. Qed.

Lemma stamped_timestamp df now :
  get_column (stamped df now) "ingestion_timestamp"
  = Some (replicate (len df) (VTimestamp now)).
Proof. apply get_set_column_eq. Qed.

Lemma priced_timestamp df now s :
  get_column (set_column (stamped df now) "claim_amount" s)
    "ingestion_timestamp"
  = Some (replicate (len df) (VTimestamp now)).
Proof.
  rewrite get_set_column_ne by discriminate. apply stamped_timestamp.
Qed.

Lemma stamped_well_formed df now :
  well_formed df -> well_formed (stamped df now).
Proof.
  intros H. apply set_column_well_formed; [|exact H].
  apply length_replicate.
Qed.

(** C1. On a frame whose claim_amount column is numeric, transform_data
    returns, for every payer, a frame in which the claim_amount of each row
    is the input amount times 1.10 when the payer is anthem in any case,
    times 0.95 when it is cigna in any case, and the input amount itself
    for any other payer. *)
Theorem transform_pricing_law st l df s p :
  heap st !! l = Some df ->
  get_column df "claim_amount" = Some s ->
  Forall (fun x => Num.numeric x = true) s ->
  exists l' st' df',
    transform_data clock l p st = (Returns l', st') /\
    heap st' !! l' = Some df' /\
    get_column df' "claim_amount" = Some (map (pricing_law p) s) /\
    forall i x,
      cell df "claim_amount" i = Some x ->
      cell df' "claim_amount" i = Some (pricing_law p x).
Proof.
  intros Hl Hs Hnum.
  rewrite (transform_data_run clock st l df p Hl), Hs.
  assert (Hmap : map (pricing_law p) s =
                 match payer_factor p with
                 | Some k => map (Num.scale k) s
                 | None => s
                 end).
  { destruct (payer_factor p) as [k|] eqn:Ek.
    - apply map_ext. intros x. now rewrite pricing_law_factor, Ek.
    - rewrite <- (map_id s) at 2. apply map_ext. intros x.
      now rewrite pricing_law_factor, Ek. }
  assert (Hcell : forall df',
             get_column df' "claim_amount" = Some (map (pricing_law p) s) ->
             forall i x, cell df "claim_amount" i = Some x ->
                         cell df' "claim_amount" i = Some (pricing_law p x)).
  { intros df' Hc i x. unfold cell. rewrite Hs, Hc. intros Hi.
    change (map (pricing_law p) s) with (pricing_law p <$> s).
    now rewrite list_lookup_fmap, Hi. }
  destruct (payer_factor p) as [k|].
  - rewrite (Series_mul_numeric s k Hnum).
    eexists _, _, _. split; [reflexivity|]. simpl.
    split; [apply lookup_fresh|].
    assert (Hc : get_column
                   (set_column (stamped df (clock (ticks st))) "claim_amount"
                      (map (Num.scale k) s)) "claim_amount"
                 = Some (map (pricing_law p) s)).
    { rewrite Hmap. apply get_set_column_eq. }
    split; [exact Hc | exact (Hcell _ Hc)].
  - eexists _, _, _. split; [reflexivity|]. simpl.
    split; [apply lookup_fresh|].
    assert (Hc : get_column (stamped df (clock (ticks st))) "claim_amount"
                 = Some (map (pricing_law p) s)).
    { rewrite Hmap, stamped_claim_amount. exact Hs. }
    split; [exact Hc | exact (Hcell _ Hc)].
Qed.

(** C6. The frame transform_data returns has as many rows as its input,
    for every payer, and its columns are as long as the input's; and on a
    frame whose claim_amount column is numeric, transform_data does
    return. *)
Theorem transform_row_count st l df p :
  heap st !! l = Some df ->
  (forall l' st',
      transform_data clock l p st = (Returns l', st') ->
      exists df',
        heap st' !! l' = Some df' /\ len df' = len df /\
        (well_formed df -> well_formed df')) /\
  (forall s,
      get_column df "claim_amount" = Some s ->
      Forall (fun x => Num.numeric x = true) s ->
      exists l' st', transform_data clock l p st = (Returns l', st')).
Proof.
  intros Hl. rewrite (transform_data_run clock st l df p Hl). split.
  - intros l' st'.
    destruct (payer_factor p) as [k|].
    + destruct (get_column df "claim_amount") as [s|] eqn:Hs; [|discriminate].
      destruct (Num.Series_mul s k) as [e|s'] eqn:Hmul; [discriminate|].
      intros [= <- <-]. simpl. eexists. split; [apply lookup_fresh|].
      split; [reflexivity|]. intros Hwf.
      apply set_column_well_formed; [|now apply stamped_well_formed].
      apply Series_mul_inr in Hmul. subst s'.
      rewrite length_map. simpl. exact (get_column_length _ _ _ Hwf Hs).
    + intros [= <- <-]. simpl. eexists. split; [apply lookup_fresh|].
      split; [reflexivity|]. apply stamped_well_formed.
  - intros s Hs Hnum. rewrite Hs.
    destruct (payer_factor p) as [k|]; [|eauto].
    rewrite (Series_mul_numeric s k Hnum). eauto.
Qed.

(** C7. In the frame one call of transform_data returns, the
    ingestion_timestamp column is present on every row and every row holds
    the same value: the one reading of the clock that the call makes. *)
Theorem transform_timestamp_shared st l df p l' st' :
  heap st !! l = Some df ->
  transform_data clock l p st = (Returns l', st') ->
  ticks st' = S (ticks st) /\
  exists df',
    heap st' !! l' = Some df' /\
    get_column df' "ingestion_timestamp"
    = Some (replicate (len df') (VTimestamp (clock (ticks st)))) /\
    forall i, i < len df' ->
      cell df' "ingestion_timestamp" i = Some (VTimestamp (clock (ticks st))).
Proof.
  intros Hl. rewrite (transform_data_run clock st l df p Hl).
  assert (Hrow : forall df',
             len df' = len df ->
             get_column df' "ingestion_timestamp"
             = Some (replicate (len df) (VTimestamp (clock (ticks st)))) ->
             forall i, i < len df' ->
               cell df' "ingestion_timestamp" i
               = Some (VTimestamp (clock (ticks st)))).
  { intros df' Hlen Hc i Hi. unfold cell. rewrite Hc.
    apply lookup_replicate_2. lia. }
  destruct (payer_factor p) as [k|].
  - destruct (get_column df "claim_amount") as [s|]; [|discriminate].
    destruct (Num.Series_mul s k) as [e|s']; [discriminate|].
    intros [= <- <-]. simpl. split; [reflexivity|].
    eexists. split; [apply lookup_fresh|].
    split; [exact (priced_timestamp df _ s')|].
    apply Hrow; [reflexivity | apply priced_timestamp].
  - intros [= <- <-]. simpl. split; [reflexivity|].
    eexists. split; [apply lookup_fresh|].
    split; [exact (stamped_timestamp df _)|].
    apply Hrow; [reflexivity | apply stamped_timestamp].
Qed.

Lemma payer_factor_billed p :
  PyStr.lower p = "anthem" \/ PyStr.lower p = "cigna" ->
  exists k, payer_factor p = Some k.
Proof.
  unfold payer_factor. intros [-> | ->]; simpl; eauto.
Qed.

Lemma payer_factor_other p :
  PyStr.lower p <> "anthem" -> PyStr.lower p <> "cigna" ->
  payer_factor p = None.
Proof.
  unfold payer_factor. intros Ha Hc.
  destruct (String.eqb_spec (PyStr.lower p) "anthem"); [contradiction|].
  destruct (String.eqb_spec (PyStr.lower p) "cigna"); [contradiction|].
  reflexivity.
Qed.

(** C3, amended. transform_data reads claim_amount only on the anthem and
    cigna branches. For a payer that is anthem or cigna in any case it
    fails with KeyError when the frame has no claim_amount column, and with
    TypeError when the column holds text or a timestamp among its numeric
    cells; the copy is made and stamped by then. For any other payer it
    returns the stamped copy, whatever claim_amount is. *)
Theorem transform_errors st l df p :
  heap st !! l = Some df ->
  (PyStr.lower p = "anthem" \/ PyStr.lower p = "cigna" ->
   (get_column df "claim_amount" = None ->
    transform_data clock l p st
    = (Raises (KeyError "claim_amount"),
       after_stamp st df (clock (ticks st)))) /\
   (forall s,
       get_column df "claim_amount" = Some s ->
       Forall (fun x => Num.numeric x = true \/ Num.non_numeric x = true) s ->
       Exists (fun x => Num.non_numeric x = true) s ->
       exists msg,
         transform_data clock l p st
         = (Raises (TypeError msg), after_stamp st df (clock (ticks st))))) /\
  (PyStr.lower p <> "anthem" -> PyStr.lower p <> "cigna" ->
   transform_data clock l p st
   = (Returns (length (heap st)), after_stamp st df (clock (ticks st)))).
Proof.
  intros Hl. rewrite (transform_data_run clock st l df p Hl). split.
  - intros Hp. destruct (payer_factor_billed p Hp) as [k ->]. split.
    + intros ->. reflexivity.
    + intros s -> Hall Hex.
      destruct (Series_mul_non_numeric s k Hall Hex) as [msg ->]. eauto.
  - intros Ha Hc. now rewrite (payer_factor_other p Ha Hc).
Qed.

(** C8, amended. transform_data leaves every frame of the heap as it was,
    its input included, whether it returns or raises; the frame it returns
    is a new one. Every column other than claim_amount and
    ingestion_timestamp is in the output as it is in the input, and the
    output has the input's columns in their order, followed by
    ingestion_timestamp when the input has no such column (when it has
    one, the column is overwritten in its place). *)
Theorem transform_frame st l df p r st' :
  heap st !! l = Some df ->
  transform_data clock l p st = (r, st') ->
  heap st' !! l = Some df /\
  (forall j x, heap st !! j = Some x -> heap st' !! j = Some x) /\
  forall l', r = Returns l' ->
    l' <> l /\
    exists df',
      heap st' !! l' = Some df' /\
      (forall c, c <> "claim_amount" -> c <> "ingestion_timestamp" ->
                 get_column df' c = get_column df c) /\
      column_names df' =
      column_names df ++
      match get_column df "ingestion_timestamp" with
      | Some _ => []
      | None => ["ingestion_timestamp"]
      end.
Proof.
  intros Hl. rewrite (transform_data_run clock st l df p Hl). intros Hrun.
  assert (Hfresh : length (heap st) <> l).
  { apply lookup_lt_Some in Hl. lia. }
  assert (Hnames : column_names (stamped df (clock (ticks st))) =
                   column_names df ++
                   match get_column df "ingestion_timestamp" with
                   | Some _ => []
                   | None => ["ingestion_timestamp"]
                   end).
  { apply set_column_names. }
  assert (Hheap : forall y j x,
             heap st' = heap st ++ [y] ->
             heap st !! j = Some x -> heap st' !! j = Some x).
  { intros y j x -> Hj. now apply lookup_old. }
  destruct (payer_factor p) as [k|].
  - destruct (get_column df "claim_amount") as [s|] eqn:Hs.
    + destruct (Num.Series_mul s k) as [e|s'];
        injection Hrun as <- <-; simpl.
      * split; [now apply lookup_old|].
        split; [intros j x; now apply lookup_old|]. discriminate.
      * split; [now apply lookup_old|].
        split; [intros j x; now apply lookup_old|].
        intros l' [= <-]. split; [exact Hfresh|].
        eexists. split; [apply lookup_fresh|]. split.
        -- intros c Hc1 Hc2.
           rewrite get_set_column_ne by congruence.
           apply get_set_column_ne. congruence.
        -- rewrite <- Hnames, set_column_names, stamped_claim_amount, Hs.
           apply app_nil_r.
    + injection Hrun as <- <-; simpl.
      split; [now apply lookup_old|].
      split; [intros j x; now apply lookup_old|]. discriminate.
  - injection Hrun as <- <-; simpl.
    split; [now apply lookup_old|].
    split; [intros j x; now apply lookup_old|].
    intros l' [= <-]. split; [exact Hfresh|].
    eexists. split; [apply lookup_fresh|]. split.
    + intros c Hc1 Hc2. apply get_set_column_ne. congruence.
    + exact Hnames.
Qed.

End TransformClaims.

(** ** The loader *)

Lemma table_name_init p :
  table_name (PayerLoader_init p) =
  if String.eqb (PyStr.lower p) "anthem" then "SNOWFLAKE.RAW.ANTHEM_TABLE"
  else if String.eqb (PyStr.lower p) "cigna" then "SNOWFLAKE.RAW.CIGNA_TABLE"
  else "SNOWFLAKE.RAW.GENERIC_CLAIMS".
Proof. reflexivity. Qed.

Lemma load_frame (self : PayerLoader) st l df :
  heap st !! l = Some df ->
  load self l st
  = (Returns tt,
     {| heap := heap st;
        trace := trace st ++
                 [Print ("Loading data into " ++ table_name self);
                  Print ("Total rows: " ++ PyStr.of_nat (len df))];
        ticks := ticks st |}).
Proof.
  intros Hl.
  unfold load, PayerLoader_load, bind, deref, print. rewrite Hl. simpl.
  now rewrite <- app_assoc.
Qed.

(** C2, amended. PayerLoader.load selects SNOWFLAKE.RAW.ANTHEM_TABLE when
    the payer is anthem, SNOWFLAKE.RAW.CIGNA_TABLE when it is cigna (the
    payer compared without regard to case) and
    SNOWFLAKE.RAW.GENERIC_CLAIMS for any other payer, and prints two lines:
    that label, then the number of rows of the frame. *)
Theorem load_destination st l df p :
  heap st !! l = Some df ->
  exists label,
    load (PayerLoader_init p) l st
    = (Returns tt,
       {| heap := heap st;
          trace := trace st ++
                   [Print ("Loading data into " ++ label);
                    Print ("Total rows: " ++ PyStr.of_nat (len df))];
          ticks := ticks st |}) /\
    (PyStr.lower p = "anthem" -> label = "SNOWFLAKE.RAW.ANTHEM_TABLE") /\
    (PyStr.lower p = "cigna" -> label = "SNOWFLAKE.RAW.CIGNA_TABLE") /\
    (PyStr.lower p <> "anthem" -> PyStr.lower p <> "cigna" ->
     label = "SNOWFLAKE.RAW.GENERIC_CLAIMS").
Proof.
  intros Hl. exists (table_name (PayerLoader_init p)). split.
  - apply (load_frame _ _ _ _ Hl).
  - rewrite table_name_init. repeat split.
    + intros ->. reflexivity.
    + intros ->. reflexivity.
    + intros Ha Hc.
      destruct (String.eqb_spec (PyStr.lower p) "anthem"); [contradiction|].
      destruct (String.eqb_spec (PyStr.lower p) "cigna"); [contradiction|].
      reflexivity.
Qed.

(** C9. Two payer names that differ only in the case of their letters
    select the same destination label, and the loaders made from them print
    the same lines. *)
Theorem destination_case_insensitive p q :
  PyStr.case_variant p q = true ->
  table_name (PayerLoader_init p) = table_name (PayerLoader_init q) /\
  forall l st, load (PayerLoader_init p) l st = load (PayerLoader_init q) l st.
Proof.
  intros H. apply case_variant_lower in H.
  unfold PayerLoader_init. rewrite H. split; reflexivity.
Qed.

(** ** The input resolver *)

(** C4, amended. Given an empty list of rows, prepare_dataframe does not
    fail: it prints its log line and returns a new frame with no row and no
    column. *)
Theorem prepare_dataframe_empty_list read_csv st :
  prepare_dataframe read_csv (PyList []) st
  = (Returns (length (heap st)),
     {| heap := heap st ++ [{| nrows := 0; columns := [] |}];
        trace := trace st ++ [Print "Reading data from manual input list"];
        ticks := ticks st |}).
Proof. reflexivity. Qed.

(** ** The driver *)

(** C5. A run with a payer of the command line other than manual and with
    no --source ends with ValueError in the state it started in: nothing is
    printed, no file is opened, the clock is not read and no frame is
    made, so neither transform_data nor the loader has run. *)
Theorem main_requires_source clock read_csv p st :
  In p choices -> p <> "manual" ->
  main clock read_csv None (Some p) st
  = (Raises (ValueError "Source file path is required for file-based loading"),
     st).
Proof.
  intros Hin Hp. simpl in Hin.
  destruct Hin as [<- | [<- | [<- | []]]]; try contradiction; reflexivity.
Qed.

Lemma main_manual_run clock read_csv src st :
  main clock read_csv src (Some "manual") st
  = (Returns tt,
     {| heap := heap st ++
                [Sample.claims; stamped Sample.claims (clock (ticks st))];
        trace := trace st ++
                 [Print "Reading data from manual input list";
                  Print "Loading data into SNOWFLAKE.RAW.GENERIC_CLAIMS";
                  Print "Total rows: 2"];
        ticks := S (ticks st) |}).
Proof.
  set (st1 := {| heap := heap st ++ [Sample.claims];
                 trace := trace st ++
                          [Print "Reading data from manual input list"];
                 ticks := ticks st |}).
  assert (Hread : prepare_dataframe read_csv (PyList manual_data) st
                  = (Returns (length (heap st)), st1)) by reflexivity.
  assert (Hl : heap st1 !! length (heap st) = Some Sample.claims)
    by apply lookup_fresh.
  assert (Hrun : transform_data clock (length (heap st)) "manual" st1
                 = (Returns (length (heap st1)),
                    after_stamp st1 Sample.claims (clock (ticks st1))))
    by apply (transform_data_run clock st1 _ _ "manual" Hl).
  assert (Hl2 : heap (after_stamp st1 Sample.claims (clock (ticks st1)))
                  !! length (heap st1)
                = Some (stamped Sample.claims (clock (ticks st1))))
    by apply lookup_fresh.
  pose proof (load_frame (PayerLoader_init "manual") _ _ _ Hl2) as Hload.
  unfold main, parse_args. simpl.
  rewrite (bind_returns _ _ _ _ _ (eq_refl : ret _ st = (Returns _, st))).
  simpl.
  rewrite (bind_returns _ _ _ _ _ Hread).
  rewrite (bind_returns _ _ _ _ _ Hrun).
  rewrite Hload. simpl. now rewrite <- !app_assoc.
Qed.

(** C10. With payer manual the run does not depend on --source, nor on
    what the file system holds: it opens no file, builds the built-in
    sample of two rows, and prints the same three lines. *)
Theorem main_manual_ignores_source clock files1 files2 src1 src2 st :
  main clock files1 src1 (Some "manual") st
  = main clock files2 src2 (Some "manual") st /\
  main clock files1 src1 (Some "manual") st
  = (Returns tt,
     {| heap := heap st ++
                [Sample.claims; stamped Sample.claims (clock (ticks st))];
        trace := trace st ++
                 [Print "Reading data from manual input list";
                  Print "Loading data into SNOWFLAKE.RAW.GENERIC_CLAIMS";
                  Print "Total rows: 2"];
        ticks := S (ticks st) |}) /\
  opened (trace (snd (main clock files1 src1 (Some "manual") st)))
  = opened (trace st) /\
  Sample.claims
  = {| nrows := 2;
       columns :=
         [("member_id", [VInt 1; VInt 2]);
          ("claim_id", [VInt 1001; VInt 1002]);
          ("claim_amount", [VInt 500; VInt 800]);
          ("service_date", [VStr "2024-01-10"; VStr "2024-02-15"]);
          ("payer_name", [VStr "manual"; VStr "manual"])] |}.
Proof.
  rewrite !main_manual_run. repeat split.
  simpl. rewrite opened_app. simpl. apply app_nil_r.
Qed.

(** * Concrete runs *)

(** The sample amounts under the two priced payers: 500 becomes 550.0 for
    anthem, 800 becomes 760.0 for cigna. *)
Example anthem_500 : pricing_law "anthem" (VInt 500) = VFloat 550.
Proof. vm_compute. reflexivity. Qed.

Example cigna_800 : pricing_law "cigna" (VInt 800) = VFloat 760.
Proof. vm_compute. reflexivity. Qed.

(** A row without the key gets NaN, and the integers of the column become
    floats; the anthem branch then multiplies the column without failing. *)
Example missing_key_is_nan :
  pd.DataFrame_of [[("claim_amount", VInt 500)]; []]
  = {| nrows := 2; columns := [("claim_amount", [VFloat 500; NaN])] |}.
Proof. vm_compute. reflexivity. Qed.

Example nan_is_priced :
  Num.Series_mul [VFloat 500; NaN] fee_anthem = inr [VFloat 550; NaN].
Proof. vm_compute. reflexivity. Qed.

(** A path with no file behind it: the path is logged, the file is tried,
    and the run ends there. *)
Example main_missing_file :
  main Sample.clock Sample.no_files (Some "claims.csv") (Some "anthem")
    Sample.empty_state
  = (Raises (OSError "No such file or directory: claims.csv"),
     {| heap := [];
        trace := [Print "Reading data from file: claims.csv";
                  Open "claims.csv"];
        ticks := 0 |}).
Proof. reflexivity. Qed.

Example float_limit_finite :
  is_infinity (Num.Z2float (Num.float_int_limit - 1)) = false.
Proof. vm_compute. reflexivity. Qed.

Example float_limit_infinite :
  Num.Z2float Num.float_int_limit = infinity.
Proof. vm_compute. reflexivity. Qed.

Lemma transform_pricing_law_witness :
  heap (Sample.holding Sample.claims) !! 0 = Some Sample.claims /\
  get_column Sample.claims "claim_amount" = Some [VInt 500; VInt 800] /\
  exists l' st' df',
    transform_data Sample.clock 0 "Anthem" (Sample.holding Sample.claims)
    = (Returns l', st') /\
    heap st' !! l' = Some df' /\
    get_column df' "claim_amount"
    = Some (map (pricing_law "Anthem") [VInt 500; VInt 800]) /\
    forall i x,
      cell Sample.claims "claim_amount" i = Some x ->
      cell df' "claim_amount" i = Some (pricing_law "Anthem" x).
Proof.
  split; [reflexivity|]. split; [reflexivity|].
  apply (transform_pricing_law Sample.clock (Sample.holding Sample.claims)
           0 Sample.claims [VInt 500; VInt 800] "Anthem").
  - reflexivity.
  - reflexivity.
  - repeat constructor.
Defined.

Lemma transform_row_count_witness :
  heap (Sample.holding Sample.claims) !! 0 = Some Sample.claims /\
  (exists df',
      heap (after_pricing (Sample.holding Sample.claims) Sample.claims 1000
              [VFloat 475; VFloat 760]) !! 1 = Some df' /\
      len df' = 2 /\ (well_formed Sample.claims -> well_formed df')) /\
  exists l' st',
    transform_data Sample.clock 0 "cigna" (Sample.holding Sample.claims)
    = (Returns l', st').
Proof.
  split; [reflexivity|].
  destruct (transform_row_count Sample.clock (Sample.holding Sample.claims)
              0 Sample.claims "cigna" eq_refl) as [Hrows Hruns].
  split.
  - apply (Hrows 1). vm_compute. reflexivity.
  - apply (Hruns [VInt 500; VInt 800]); [reflexivity | repeat constructor].
Defined.

Lemma transform_timestamp_shared_witness :
  heap (Sample.holding Sample.claims) !! 0 = Some Sample.claims /\
  transform_data Sample.clock 0 "manual" (Sample.holding Sample.claims)
  = (Returns 1, after_stamp (Sample.holding Sample.claims) Sample.claims 1000)
  /\
  ticks (after_stamp (Sample.holding Sample.claims) Sample.claims 1000) = 1 /\
  exists df',
    heap (after_stamp (Sample.holding Sample.claims) Sample.claims 1000) !! 1
    = Some df' /\
    get_column df' "ingestion_timestamp"
    = Some (replicate (len df') (VTimestamp 1000)) /\
    forall i, i < len df' ->
      cell df' "ingestion_timestamp" i = Some (VTimestamp 1000).
Proof.
  split; [reflexivity|]. split; [reflexivity|].
  apply (transform_timestamp_shared Sample.clock
           (Sample.holding Sample.claims) 0 Sample.claims "manual" 1
           (after_stamp (Sample.holding Sample.claims) Sample.claims 1000));
    reflexivity.
Defined.

(** Without a claim_amount column, and with text in it, transform_data
    still returns for payer manual: no exception is raised. *)
Lemma transform_errors_counterexample :
  get_column Sample.members "claim_amount" = None /\
  transform_data Sample.clock 0 "manual" (Sample.holding Sample.members)
  = (Returns 1, after_stamp (Sample.holding Sample.members) Sample.members 1000)
  /\
  get_column Sample.worded "claim_amount" = Some [VInt 500; VStr "n/a"] /\
  transform_data Sample.clock 0 "manual" (Sample.holding Sample.worded)
  = (Returns 1, after_stamp (Sample.holding Sample.worded) Sample.worded 1000).
Proof. repeat split. Qed.

Lemma transform_errors_witness :
  heap (Sample.holding Sample.members) !! 0 = Some Sample.members /\
  heap (Sample.holding Sample.worded) !! 0 = Some Sample.worded /\
  transform_data Sample.clock 0 "Anthem" (Sample.holding Sample.members)
  = (Raises (KeyError "claim_amount"),
     after_stamp (Sample.holding Sample.members) Sample.members 1000) /\
  (exists msg,
      transform_data Sample.clock 0 "CIGNA" (Sample.holding Sample.worded)
      = (Raises (TypeError msg),
         after_stamp (Sample.holding Sample.worded) Sample.worded 1000)) /\
  transform_data Sample.clock 0 "manual" (Sample.holding Sample.worded)
  = (Returns 1, after_stamp (Sample.holding Sample.worded) Sample.worded 1000).
Proof.
  split; [reflexivity|]. split; [reflexivity|].
  destruct (transform_errors Sample.clock (Sample.holding Sample.members)
              0 Sample.members "Anthem" eq_refl) as [Hbilled _].
  destruct (Hbilled (or_introl eq_refl)) as [Hkey _].
  destruct (transform_errors Sample.clock (Sample.holding Sample.worded)
              0 Sample.worded "CIGNA" eq_refl) as [Hbilled' _].
  destruct (Hbilled' (or_intror eq_refl)) as [_ Htype].
  destruct (transform_errors Sample.clock (Sample.holding Sample.worded)
              0 Sample.worded "manual" eq_refl) as [_ Hother].
  split; [exact (Hkey eq_refl)|]. split.
  - apply (Htype [VInt 500; VStr "n/a"] eq_refl).
    + constructor; [left; reflexivity|].
      constructor; [right; reflexivity|]. constructor.
    + apply Exists_cons_tl, Exists_cons_hd. reflexivity.
  - apply Hother; discriminate.
Defined.

(** An ingestion_timestamp column of the input is not carried into the
    output: the stamp replaces it. *)
Lemma transform_frame_counterexample :
  transform_data Sample.clock 0 "manual" (Sample.holding Sample.restamped)
  = (Returns 1,
     {| heap := [Sample.restamped; stamped Sample.restamped 1000];
        trace := []; ticks := 1 |}) /\
  get_column Sample.restamped "ingestion_timestamp"
  = Some [VStr "2020-01-01"] /\
  get_column (stamped Sample.restamped 1000) "ingestion_timestamp"
  = Some [VTimestamp 1000] /\
  get_column (stamped Sample.restamped 1000) "ingestion_timestamp"
  <> get_column Sample.restamped "ingestion_timestamp".
Proof. repeat split. discriminate. Qed.

Lemma transform_frame_witness :
  heap (Sample.holding Sample.restamped) !! 0 = Some Sample.restamped /\
  transform_data Sample.clock 0 "anthem" (Sample.holding Sample.restamped)
  = (Returns 1,
     after_pricing (Sample.holding Sample.restamped) Sample.restamped 1000
       [VFloat 11]) /\
  heap (after_pricing (Sample.holding Sample.restamped) Sample.restamped 1000
          [VFloat 11]) !! 0 = Some Sample.restamped /\
  exists df',
    heap (after_pricing (Sample.holding Sample.restamped) Sample.restamped
            1000 [VFloat 11]) !! 1 = Some df' /\
    column_names df' = ["ingestion_timestamp"; "claim_amount"].
Proof.
  split; [reflexivity|]. split; [vm_compute; reflexivity|].
  destruct (transform_frame Sample.clock (Sample.holding Sample.restamped)
              0 Sample.restamped "anthem" (Returns 1)
              (after_pricing (Sample.holding Sample.restamped)
                 Sample.restamped 1000 [VFloat 11]) eq_refl)
    as (Hinput & _ & Hout).
  { vm_compute. reflexivity. }
  split; [exact Hinput|].
  destruct (Hout 1 eq_refl) as (_ & df' & Hdf' & _ & Hnames).
  exists df'. split; [exact Hdf' | exact Hnames].
Defined.

(** The label of the code is not the label of the claim. *)
Lemma load_destination_counterexample :
  load (PayerLoader_init "anthem") 0 (Sample.holding Sample.claims)
  = (Returns tt,
     {| heap := [Sample.claims];
        trace := [Print "Loading data into SNOWFLAKE.RAW.ANTHEM_TABLE";
                  Print "Total rows: 2"];
        ticks := 0 |}) /\
  table_name (PayerLoader_init "anthem") <> "RAW.ANTHEM_TABLE".
Proof. split; [reflexivity | discriminate]. Qed.

Lemma load_destination_witness :
  heap (Sample.holding Sample.claims) !! 0 = Some Sample.claims /\
  exists label,
    load (PayerLoader_init "Cigna") 0 (Sample.holding Sample.claims)
    = (Returns tt,
       {| heap := [Sample.claims];
          trace := [] ++
                   [Print ("Loading data into " ++ label);
                    Print ("Total rows: " ++ PyStr.of_nat 2)];
          ticks := 0 |}) /\
    label = "SNOWFLAKE.RAW.CIGNA_TABLE".
Proof.
  split; [reflexivity|].
  destruct (load_destination (Sample.holding Sample.claims) 0 Sample.claims
              "Cigna" eq_refl) as (label & Hrun & _ & Hcigna & _).
  exists label. split; [exact Hrun | exact (Hcigna eq_refl)].
Defined.

Lemma destination_case_insensitive_witness :
  PyStr.case_variant "Anthem" "anthem" = true /\
  table_name (PayerLoader_init "Anthem") = table_name (PayerLoader_init "anthem").
Proof.
  split; [reflexivity|].
  apply (destination_case_insensitive "Anthem" "anthem"). reflexivity.
Defined.

(** The empty list gives a frame, not an exception. *)
Lemma prepare_dataframe_empty_list_counterexample :
  prepare_dataframe Sample.no_files (PyList []) Sample.empty_state
  = (Returns 0,
     {| heap := [{| nrows := 0; columns := [] |}];
        trace := [Print "Reading data from manual input list"];
        ticks := 0 |}).
Proof. reflexivity. Qed.

Lemma main_requires_source_witness :
  In "anthem" choices /\ "anthem" <> "manual" /\
  main Sample.clock Sample.no_files None (Some "anthem") Sample.empty_state
  = (Raises (ValueError "Source file path is required for file-based loading"),
     Sample.empty_state).
Proof.
  split; [left; reflexivity|]. split; [discriminate|].
  apply (main_requires_source Sample.clock Sample.no_files "anthem").
  - left. reflexivity.
  - discriminate.
Defined.

(** * Further properties of the code *)

(** ** Frames made from rows *)

Lemma existsb_eqb_In k (l : list string) :
  existsb (String.eqb k) l = true <-> List.In k l.
Proof.
  rewrite existsb_exists. split.
  - intros (x & Hx & Heq). apply String.eqb_eq in Heq. now subst.
  - intros H. exists k. split; [exact H | apply String.eqb_refl].
Qed.

Lemma NoDup_snoc (l : list string) k :
  List.NoDup l -> ~ List.In k l -> List.NoDup (l ++ [k]).
Proof.
  induction 1 as [|x l Hx Hl IH]; simpl; intros Hk.
  - constructor; [intros [] | constructor].
  - constructor.
    + rewrite List.in_app_iff. simpl. intros [H | [H | []]]; [tauto|].
      subst. tauto.
    + apply IH. tauto.
Qed.

Lemma add_keys_In seen ks k :
  List.In k (pd.add_keys seen ks) <-> List.In k seen \/ List.In k ks.
Proof.
  revert seen. induction ks as [|k0 ks IH]; intros seen; simpl.
  - tauto.
  - destruct (existsb (String.eqb k0) seen) eqn:E; rewrite IH.
    + apply existsb_eqb_In in E. split; [tauto|].
      intros [H | [H | H]]; subst; tauto.
    + rewrite List.in_app_iff. simpl. tauto.
Qed.

Lemma add_keys_NoDup seen ks :
  List.NoDup seen -> List.NoDup (pd.add_keys seen ks).
Proof.
  revert seen. induction ks as [|k0 ks IH]; intros seen Hs; simpl.
  - exact Hs.
  - destruct (existsb (String.eqb k0) seen) eqn:E; apply IH; [exact Hs|].
    apply NoDup_snoc; [exact Hs|].
    intros Hin. apply existsb_eqb_In in Hin. congruence.
Qed.

Lemma keys_fold_In (rows : list pd.record) acc k :
  List.In k (fold_left (fun seen r => pd.add_keys seen (map fst r)) rows acc)
  <-> List.In k acc \/ exists r, List.In r rows /\ List.In k (map fst r).
Proof.
  revert acc. induction rows as [|r rows IH]; intros acc; simpl.
  - split; [tauto|]. intros [H | (r & [] & _)]. exact H.
  - rewrite IH, add_keys_In. split.
    + intros [[H | H] | (r' & Hr' & Hk)]; eauto.
    + intros [H | (r' & [<- | Hr'] & Hk)]; eauto.
Qed.

Lemma keys_fold_NoDup (rows : list pd.record) acc :
  List.NoDup acc ->
  List.NoDup (fold_left (fun seen r => pd.add_keys seen (map fst r)) rows acc).
Proof.
  revert acc. induction rows as [|r rows IH]; intros acc Hacc; simpl.
  - exact Hacc.
  - apply IH, add_keys_NoDup, Hacc.
Qed.

Lemma keys_union_In rows k :
  List.In k (pd.keys_union rows)
  <-> exists r, List.In r rows /\ List.In k (map fst r).
Proof.
  unfold pd.keys_union. rewrite keys_fold_In. simpl. tauto.
Qed.

Lemma keys_union_NoDup rows : List.NoDup (pd.keys_union rows).
Proof. apply keys_fold_NoDup. constructor. Qed.

Lemma infer_length s : length (pd.infer s) = length s.
Proof.
  unfold pd.infer.
  destruct (forallb pd.int_or_float s && existsb pd.is_float s);
    [apply length_map | reflexivity].
Qed.

Lemma column_of_length rows k : length (pd.column_of rows k) = length rows.
Proof. unfold pd.column_of. now rewrite infer_length, length_map. Qed.

Lemma column_names_DataFrame_of rows :
  column_names (pd.DataFrame_of rows) = pd.keys_union rows.
Proof.
  unfold column_names, pd.DataFrame_of. simpl.
  rewrite map_map. simpl. apply map_id.
Qed.

Lemma DataFrame_of_well_formed rows : well_formed (pd.DataFrame_of rows).
Proof.
  unfold well_formed, pd.DataFrame_of. simpl.
  apply List.Forall_forall. intros [k s] Hin.
  apply in_map_iff in Hin as (k' & [= <- <-] & _). simpl.
  apply column_of_length.
Qed.

Lemma assoc_keyed {A} (f : string -> A) ks k :
  List.In k ks -> assoc k (map (fun k => (k, f k)) ks) = Some (f k).
Proof.
  induction ks as [|k0 ks IH]; simpl; [intros []|].
  destruct (String.eqb_spec k k0) as [->|Hne]; [reflexivity|].
  intros [H | H]; [congruence | auto].
Qed.

Lemma lookup_In {A} (l : list A) i x : l !! i = Some x -> List.In x l.
Proof.
  revert i. induction l as [|y l IH]; intros [|i]; simpl;
    try discriminate.
  - intros [= ->]. now left.
  - intros H. right. eauto.
Qed.

Lemma infer_lookup s i v :
  s !! i = Some v ->
  pd.infer s !! i = Some v \/
  exists z, v = VInt z /\ pd.infer s !! i = Some (VFloat (Num.Z2float z)).
Proof.
  intros Hi. unfold pd.infer.
  destruct (forallb pd.int_or_float s && existsb pd.is_float s) eqn:E;
    [|now left].
  apply andb_prop in E as [Hall _].
  rewrite forallb_forall in Hall.
  specialize (Hall v (lookup_In _ _ _ Hi)).
  change (map ?f s) with (f <$> s). rewrite list_lookup_fmap, Hi. simpl.
  destruct v; simpl in *; try discriminate; eauto.
Qed.

Lemma column_of_lookup rows k i r :
  rows !! i = Some r ->
  match assoc k r with
  | None => pd.column_of rows k !! i = Some NaN
  | Some v =>
      pd.column_of rows k !! i = Some v \/
      exists z, v = VInt z /\
                pd.column_of rows k !! i = Some (VFloat (Num.Z2float z))
  end.
Proof.
  intros Hi. unfold pd.column_of.
  assert (Hm : (map (fun r0 => default NaN (assoc k r0)) rows) !! i
               = Some (default NaN (assoc k r))).
  { change (map ?f rows) with (f <$> rows).
    now rewrite list_lookup_fmap, Hi. }
  destruct (infer_lookup _ _ _ Hm) as [H | (z & Hz & H)];
    destruct (assoc k r) as [v|]; simpl in *; eauto.
  discriminate.
Qed.

(** ** The input resolver, all overloads *)

(** X1. Whatever it is called with, prepare_dataframe never reads the clock
    and never touches a frame that exists: on success it returns one new
    frame, on failure it leaves the heap as it was. It opens a file only
    for a string, and then exactly the file at that path; an input that is
    neither a string nor a list is refused with TypeError before anything
    is printed. *)
Theorem prepare_dataframe_effects read_csv input st r st' :
  prepare_dataframe read_csv input st = (r, st') ->
  ticks st' = ticks st /\
  opened (trace st') =
  opened (trace st) ++
  match input with PyString path => [path] | _ => [] end /\
  match r with
  | Returns l => l = length (heap st) /\ exists df, heap st' = heap st ++ [df]
  | Raises e => heap st' = heap st
  | Stuck => False
  end /\
  (input = PyOther ->
   r = Raises (TypeError "Unsupported input type for prepare_dataframe") /\
   st' = st).
Proof.
  destruct input as [path|rows|]; unfold prepare_dataframe.
  - unfold bind, print, pd_read_csv, alloc. simpl.
    destruct (read_csv path) as [e|df]; intros [= <- <-]; simpl;
      rewrite !opened_app; simpl; rewrite ?app_nil_r;
      repeat split; eauto; discriminate.
  - unfold bind, print, alloc. simpl. intros [= <- <-]. simpl.
    rewrite opened_app. simpl. repeat split; eauto; discriminate.
  - unfold raise. intros [= <- <-]. rewrite app_nil_r. repeat split.
Qed.

(** X2. From a list of rows prepare_dataframe makes a frame with one row
    per element of the list, whose columns are all as long as the index
    and have distinct names: the keys that occur in the rows, each once. *)
Theorem prepare_dataframe_list_shape read_csv rows st :
  exists st' df,
    prepare_dataframe read_csv (PyList rows) st
    = (Returns (length (heap st)), st') /\
    heap st' !! length (heap st) = Some df /\
    len df = length rows /\
    well_formed df /\
    List.NoDup (column_names df) /\
    forall k,
      List.In k (column_names df)
      <-> exists r, List.In r rows /\ List.In k (map fst r).
Proof.
  eexists _, (pd.DataFrame_of rows). split; [reflexivity|]. simpl.
  split; [apply lookup_fresh|]. split; [reflexivity|].
  split; [apply DataFrame_of_well_formed|].
  rewrite column_names_DataFrame_of.
  split; [apply keys_union_NoDup | apply keys_union_In].
Qed.


(** ** The transformer: effects, types and repetition *)

Lemma map_pricing_law p s :
  map (pricing_law p) s =
  match payer_factor p with Some k => map (Num.scale k) s | None => s end.
Proof.
  destruct (payer_factor p) as [k|] eqn:Ek.
  - apply map_ext. intros x. now rewrite pricing_law_factor, Ek.
  - rewrite <- (map_id s) at 2. apply map_ext. intros x.
    now rewrite pricing_law_factor, Ek.
Qed.

Lemma payer_factor_values p k :
  payer_factor p = Some k -> k = fee_anthem \/ k = discount_cigna.
Proof.
  unfold payer_factor.
  destruct (String.eqb (PyStr.lower p) "anthem"); [intros [= <-]; auto|].
  destruct (String.eqb (PyStr.lower p) "cigna"); [intros [= <-]; auto|].
  discriminate.
Qed.

Lemma scale_NaN p k : payer_factor p = Some k -> Num.scale k NaN = NaN.
Proof.
  intros H. destruct (payer_factor_values p k H) as [-> | ->];
    vm_compute; reflexivity.
Qed.

Lemma scale_is_float k s :
  Forall (fun x => pd.is_float x = true) (map (Num.scale k) s).
Proof. induction s; simpl; constructor; auto. Qed.

Lemma is_float_numeric s :
  Forall (fun x => pd.is_float x = true) s ->
  Forall (fun x => Num.numeric x = true) s.
Proof.
  induction 1 as [|x s Hx Hs IH]; constructor; [|exact IH].
  destruct x; simpl in *; congruence.
Qed.

Lemma transform_numeric_run clock st l df s p :
  heap st !! l = Some df ->
  get_column df "claim_amount" = Some s ->
  Forall (fun x => Num.numeric x = true) s ->
  transform_data clock l p st
  = (Returns (length (heap st)),
     {| heap := heap st ++ [transformed df (clock (ticks st)) p];
        trace := trace st;
        ticks := S (ticks st) |}).
Proof.
  intros Hl Hs Hnum.
  rewrite (transform_data_run clock st l df p Hl), Hs.
  unfold transformed. rewrite Hs.
  destruct (payer_factor p) as [k|]; [|reflexivity].
  now rewrite (Series_mul_numeric s k Hnum).
Qed.

Lemma transformed_claim_amount df now p s :
  get_column df "claim_amount" = Some s ->
  get_column (transformed df now p) "claim_amount"
  = Some (map (pricing_law p) s).
Proof.
  intros Hs. unfold transformed. rewrite Hs, map_pricing_law.
  destruct (payer_factor p) as [k|].
  - apply get_set_column_eq.
  - now rewrite stamped_claim_amount.
Qed.

Lemma transformed_timestamp df now p :
  get_column (transformed df now p) "ingestion_timestamp"
  = Some (replicate (len df) (VTimestamp now)).
Proof.
  unfold transformed.
  destruct (payer_factor p) as [k|];
    [destruct (get_column df "claim_amount") as [s|]|];
    try apply stamped_timestamp.
  apply priced_timestamp.
Qed.

Lemma transformed_len df now p : len (transformed df now p) = len df.
Proof.
  unfold transformed.
  destruct (payer_factor p) as [k|];
    [destruct (get_column df "claim_amount") as [s|]|]; reflexivity.
Qed.

Lemma transformed_names df now p :
  column_names (transformed df now p) = column_names (stamped df now).
Proof.
  unfold transformed.
  destruct (payer_factor p) as [k|]; [|reflexivity].
  destruct (get_column df "claim_amount") as [s|] eqn:Hs; [|reflexivity].
  rewrite set_column_names, stamped_claim_amount, Hs. apply app_nil_r.
Qed.

Lemma pricing_law_numeric p s :
  Forall (fun x => Num.numeric x = true) s ->
  Forall (fun x => Num.numeric x = true) (map (pricing_law p) s).
Proof.
  intros Hs. rewrite map_pricing_law.
  destruct (payer_factor p) as [k|]; [|exact Hs].
  apply is_float_numeric, scale_is_float.
Qed.

(** X4. transform_data prints nothing and opens no file; it reads the clock
    exactly once and puts exactly one new frame on the heap, whether it
    returns or raises: the copy, as long as the input and carrying the
    stamp. *)
Theorem transform_data_effects clock st l df p r st' :
  heap st !! l = Some df ->
  transform_data clock l p st = (r, st') ->
  trace st' = trace st /\
  ticks st' = S (ticks st) /\
  r <> Stuck /\
  exists out,
    heap st' = heap st ++ [out] /\
    len out = len df /\
    get_column out "ingestion_timestamp"
    = Some (replicate (len df) (VTimestamp (clock (ticks st)))).
Proof.
  intros Hl. rewrite (transform_data_run clock st l df p Hl).
  destruct (payer_factor p) as [k|];
    [destruct (get_column df "claim_amount") as [s|];
     [destruct (Num.Series_mul s k) as [e|s']|]|];
    intros [= <- <-]; simpl; repeat split; try discriminate;
    eexists; repeat split;
    first [apply stamped_timestamp | apply priced_timestamp].
Qed.

(** X5. On the anthem and cigna branches every amount of the frame that is
    returned is a float, whatever the input held: an integer column comes
    back as a float column of the same length. *)
Theorem transform_priced_amounts_are_floats clock st l df s p l' st' :
  heap st !! l = Some df ->
  get_column df "claim_amount" = Some s ->
  PyStr.lower p = "anthem" \/ PyStr.lower p = "cigna" ->
  transform_data clock l p st = (Returns l', st') ->
  exists df' s',
    heap st' !! l' = Some df' /\
    get_column df' "claim_amount" = Some s' /\
    length s' = length s /\
    Forall (fun x => pd.is_float x = true) s'.
Proof.
  intros Hl Hs Hp. destruct (payer_factor_billed p Hp) as [k Hk].
  rewrite (transform_data_run clock st l df p Hl), Hk, Hs.
  destruct (Num.Series_mul s k) as [e|s'] eqn:Hmul; [discriminate|].
  intros [= <- <-]. apply Series_mul_inr in Hmul. subst s'.
  eexists _, _. split; [apply lookup_fresh|].
  split; [apply get_set_column_eq|].
  split; [apply length_map | apply scale_is_float].
Qed.

(** X6. A missing amount stays missing: a row whose claim_amount is NaN has
    NaN in the frame that is returned, for every payer. *)
Theorem transform_keeps_missing_amounts clock st l df p l' st' i :
  heap st !! l = Some df ->
  transform_data clock l p st = (Returns l', st') ->
  cell df "claim_amount" i = Some NaN ->
  exists df',
    heap st' !! l' = Some df' /\ cell df' "claim_amount" i = Some NaN.
Proof.
  intros Hl. rewrite (transform_data_run clock st l df p Hl).
  unfold cell at 1.
  destruct (get_column df "claim_amount") as [s|] eqn:Hs;
    [|destruct (payer_factor p); discriminate].
  destruct (payer_factor p) as [k|] eqn:Hk.
  - destruct (Num.Series_mul s k) as [e|s'] eqn:Hmul; [discriminate|].
    intros [= <- <-] Hi. apply Series_mul_inr in Hmul. subst s'.
    eexists. split; [apply lookup_fresh|].
    unfold cell. rewrite get_set_column_eq.
    change (map ?f s) with (f <$> s). rewrite list_lookup_fmap, Hi. simpl.
    now rewrite (scale_NaN p k Hk).
  - intros [= <- <-] Hi. eexists. split; [apply lookup_fresh|].
    unfold cell. now rewrite stamped_claim_amount, Hs.
Qed.

Lemma stamped_names_again df now :
  (exists s, get_column df "ingestion_timestamp" = Some s) ->
  column_names (stamped df now) = column_names df.
Proof.
  intros [s Hs]. unfold stamped. rewrite set_column_names, Hs.
  apply app_nil_r.
Qed.

(** X7. transform_data is not idempotent. Applied to its own output on a
    numeric claim_amount column, it applies the payer's factor a second
    time and replaces the first stamp with a later reading of the clock;
    the columns and their order stay as after the first call, and both
    calls leave their frame on the heap. *)
Theorem transform_data_twice clock st l df s p :
  heap st !! l = Some df ->
  get_column df "claim_amount" = Some s ->
  Forall (fun x => Num.numeric x = true) s ->
  exists st2 out1 out2,
    (let* once := transform_data clock l p in transform_data clock once p) st
    = (Returns (S (length (heap st))), st2) /\
    heap st2 = heap st ++ [out1; out2] /\
    ticks st2 = S (S (ticks st)) /\
    get_column out1 "claim_amount" = Some (map (pricing_law p) s) /\
    get_column out2 "claim_amount"
    = Some (map (pricing_law p) (map (pricing_law p) s)) /\
    get_column out1 "ingestion_timestamp"
    = Some (replicate (len df) (VTimestamp (clock (ticks st)))) /\
    get_column out2 "ingestion_timestamp"
    = Some (replicate (len df) (VTimestamp (clock (S (ticks st))))) /\
    column_names out2 = column_names out1.
Proof.
  intros Hl Hs Hnum.
  set (out1 := transformed df (clock (ticks st)) p).
  set (st1 := {| heap := heap st ++ [out1]; trace := trace st;
                 ticks := S (ticks st) |}).
  assert (Hrun1 : transform_data clock l p st
                  = (Returns (length (heap st)), st1))
    by exact (transform_numeric_run clock st l df s p Hl Hs Hnum).
  assert (Hl1 : heap st1 !! length (heap st) = Some out1)
    by apply lookup_fresh.
  assert (Hs1 : get_column out1 "claim_amount"
                = Some (map (pricing_law p) s))
    by exact (transformed_claim_amount df _ p s Hs).
  pose proof (transform_numeric_run clock st1 _ out1 _ p Hl1 Hs1
                (pricing_law_numeric p s Hnum)) as Hrun2.
  exists {| heap := heap st1 ++ [transformed out1 (clock (ticks st1)) p];
            trace := trace st1; ticks := S (ticks st1) |},
    out1, (transformed out1 (clock (ticks st1)) p).
  split.
  { rewrite (bind_returns _ _ _ _ _ Hrun1), Hrun2. simpl.
    now rewrite length_app, Nat.add_1_r. }
  simpl. split; [now rewrite <- app_assoc|]. split; [reflexivity|].
  split; [exact Hs1|].
  split; [exact (transformed_claim_amount out1 _ p _ Hs1)|].
  split; [apply transformed_timestamp|].
  split.
  - rewrite transformed_timestamp. unfold out1.
    now rewrite transformed_len.
  - rewrite transformed_names. apply stamped_names_again.
    eexists. apply transformed_timestamp.
Qed.

(** X8. The transformer and the loader agree on which payers are special:
    on a frame without a claim_amount column, transform_data returns
    exactly for the payers that the loader sends to the generic table, and
    raises KeyError for the payers that have a table of their own. *)
Theorem transform_returns_iff_generic clock st l df p :
  heap st !! l = Some df ->
  get_column df "claim_amount" = None ->
  (table_name (PayerLoader_init p) = "SNOWFLAKE.RAW.GENERIC_CLAIMS"
   <-> exists l' st', transform_data clock l p st = (Returns l', st')) /\
  (table_name (PayerLoader_init p) <> "SNOWFLAKE.RAW.GENERIC_CLAIMS"
   <-> exists st',
       transform_data clock l p st = (Raises (KeyError "claim_amount"), st')).
Proof.
  intros Hl Hs.
  rewrite (transform_data_run clock st l df p Hl), Hs, table_name_init.
  unfold payer_factor.
  destruct (String.eqb (PyStr.lower p) "anthem");
    [|destruct (String.eqb (PyStr.lower p) "cigna")];
    (split; split; intros H;
     try discriminate; try (now destruct H as (? & ? & [=]));
     try (now destruct H as (? & [=])); try (now elim H); eauto).
Qed.

(** ** Resolver and transformer together *)

Lemma pricing_law_NaN p : pricing_law p NaN = NaN.
Proof.
  rewrite pricing_law_factor.
  destruct (payer_factor p) as [k|] eqn:Hk; [|reflexivity].
  exact (scale_NaN p k Hk).
Qed.

Lemma infer_numeric s :
  Forall (fun x => Num.numeric x = true) s ->
  Forall (fun x => Num.numeric x = true) (pd.infer s).
Proof.
  intros Hs. unfold pd.infer.
  destruct (forallb pd.int_or_float s && existsb pd.is_float s);
    [|exact Hs].
  clear Hs. induction s; simpl; constructor; auto.
Qed.

Lemma column_of_numeric rows k :
  (forall r v, List.In r rows -> assoc k r = Some v -> Num.numeric v = true) ->
  Forall (fun x => Num.numeric x = true) (pd.column_of rows k).
Proof.
  intros Hnum. unfold pd.column_of. apply infer_numeric.
  induction rows as [|r rows IH]; simpl; constructor.
  - destruct (assoc k r) as [v|] eqn:Hv; simpl; [|reflexivity].
    apply (Hnum r v); [now left | exact Hv].
  - apply IH. intros r' v Hin. apply Hnum. now right.
Qed.

(** X9. A row without an amount does not stop the pipeline. When some row
    of the list has the key claim_amount and the amounts that are given
    are numeric, prepare_dataframe followed by transform_data returns for
    every payer a frame with one row per element of the list, and the rows
    that gave no amount have NaN as their claim_amount. *)
Theorem list_pipeline_tolerates_missing_amounts clock read_csv rows p st :
  (exists r, List.In r rows /\ List.In "claim_amount" (map fst r)) ->
  (forall r v, List.In r rows -> assoc "claim_amount" r = Some v ->
               Num.numeric v = true) ->
  exists st' df,
    (let* made := prepare_dataframe read_csv (PyList rows) in
     transform_data clock made p) st
    = (Returns (S (length (heap st))), st') /\
    heap st' !! S (length (heap st)) = Some df /\
    len df = length rows /\
    forall i r,
      rows !! i = Some r -> assoc "claim_amount" r = None ->
      cell df "claim_amount" i = Some NaN.
Proof.
  intros Hkey Hnum.
  set (st1 := {| heap := heap st ++ [pd.DataFrame_of rows];
                 trace := trace st ++
                          [Print "Reading data from manual input list"];
                 ticks := ticks st |}).
  assert (Hmade : prepare_dataframe read_csv (PyList rows) st
                  = (Returns (length (heap st)), st1)) by reflexivity.
  assert (Hl : heap st1 !! length (heap st) = Some (pd.DataFrame_of rows))
    by apply lookup_fresh.
  assert (Hs : get_column (pd.DataFrame_of rows) "claim_amount"
               = Some (pd.column_of rows "claim_amount")).
  { apply keys_union_In in Hkey.
    exact (assoc_keyed (pd.column_of rows) _ _ Hkey). }
  pose proof (transform_numeric_run clock st1 _ _ _ p Hl Hs
                (column_of_numeric rows _ Hnum)) as Hrun.
  eexists _, _. split.
  { rewrite (bind_returns _ _ _ _ _ Hmade), Hrun. simpl.
    now rewrite length_app, Nat.add_1_r. }
  simpl. split.
  { replace (S (length (heap st))) with (length (heap st ++ [pd.DataFrame_of rows]))
      by (rewrite length_app; simpl; lia).
    apply lookup_fresh. }
  split; [now rewrite transformed_len|].
  intros i r Hi Hnone. unfold cell.
  rewrite (transformed_claim_amount _ _ p _ Hs).
  change (map ?f ?l) with (f <$> l). rewrite list_lookup_fmap.
  pose proof (column_of_lookup rows "claim_amount" i r Hi) as Hcell.
  rewrite Hnone in Hcell. rewrite Hcell. simpl.
  now rewrite pricing_law_NaN.
Qed.

(** ** The driver on a file *)

Lemma choices_file_payer p :
  List.In p choices -> p <> "manual" -> p = "anthem" \/ p = "cigna".
Proof. simpl. intros [<- | [<- | [<- | []]]] Hp; auto. contradiction. Qed.

Lemma main_file_run clock read_csv p path st :
  List.In p choices -> p <> "manual" -> path <> "" ->
  main clock read_csv (Some path) (Some p) st
  = (let* df := prepare_dataframe read_csv (PyString path) in
     let* out := transform_data clock df p in
     load (PayerLoader_init p) out) st.
Proof.
  intros Hin Hp Hpath.
  destruct path as [|c path]; [contradiction|].
  destruct (choices_file_payer p Hin Hp) as [-> | ->]; reflexivity.
Qed.

Lemma prepare_dataframe_file_ok read_csv path df st :
  read_csv path = inr df ->
  prepare_dataframe read_csv (PyString path) st
  = (Returns (length (heap st)),
     {| heap := heap st ++ [df];
        trace := trace st ++
                 [Print ("Reading data from file: " ++ path); Open path];
        ticks := ticks st |}).
Proof.
  intros Hread. unfold prepare_dataframe, bind, print, pd_read_csv, alloc.
  simpl. rewrite Hread. simpl. now rewrite <- app_assoc.
Qed.

Lemma prepare_dataframe_file_error read_csv path e st :
  read_csv path = inl e ->
  prepare_dataframe read_csv (PyString path) st
  = (Raises e,
     {| heap := heap st;
        trace := trace st ++
                 [Print ("Reading data from file: " ++ path); Open path];
        ticks := ticks st |}).
Proof.
  intros Hread. unfold prepare_dataframe, bind, print, pd_read_csv.
  simpl. rewrite Hread. simpl. now rewrite <- app_assoc.
Qed.

Lemma bind_raises {A B} (m : M A) (k : A -> M B) st e st' :
  m st = (Raises e, st') -> bind m k st = (Raises e, st').
Proof. unfold bind. now intros ->. Qed.

(** X10. A run on a file whose frame has a numeric claim_amount column
    succeeds for anthem and for cigna: it prints the path, opens that file
    and no other, reads the clock once, leaves the frame that was read and
    its priced and stamped copy on the heap, and prints the payer's table
    and the number of rows of the file. *)
Theorem main_file_success clock read_csv p path df s st :
  List.In p choices -> p <> "manual" -> path <> "" ->
  read_csv path = inr df ->
  get_column df "claim_amount" = Some s ->
  Forall (fun x => Num.numeric x = true) s ->
  exists out,
    main clock read_csv (Some path) (Some p) st
    = (Returns tt,
       {| heap := heap st ++ [df; out];
          trace := trace st ++
                   [Print ("Reading data from file: " ++ path);
                    Open path;
                    Print ("Loading data into " ++
                           table_name (PayerLoader_init p));
                    Print ("Total rows: " ++ PyStr.of_nat (len df))];
          ticks := S (ticks st) |}) /\
    get_column out "claim_amount" = Some (map (pricing_law p) s) /\
    get_column out "ingestion_timestamp"
    = Some (replicate (len df) (VTimestamp (clock (ticks st)))).
Proof.
  intros Hin Hp Hpath Hread Hs Hnum.
  exists (transformed df (clock (ticks st)) p).
  split; [|split; [now apply transformed_claim_amount
                  | apply transformed_timestamp]].
  rewrite (main_file_run clock read_csv p path st Hin Hp Hpath).
  rewrite (bind_returns _ _ _ _ _
             (prepare_dataframe_file_ok read_csv path df st Hread)).
  set (st1 := {| heap := heap st ++ [df]; trace := _; ticks := ticks st |}).
  assert (Hl : heap st1 !! length (heap st) = Some df) by apply lookup_fresh.
  rewrite (bind_returns _ _ _ _ _
             (transform_numeric_run clock st1 _ df s p Hl Hs Hnum)).
  set (st2 := {| heap := heap st1 ++ [transformed df (clock (ticks st1)) p];
                 trace := trace st1; ticks := S (ticks st1) |}).
  assert (Hl2 : heap st2 !! length (heap st1)
                = Some (transformed df (clock (ticks st1)) p))
    by apply lookup_fresh.
  rewrite (load_frame (PayerLoader_init p) st2 _ _ Hl2).
  simpl. rewrite transformed_len. now rewrite <- !app_assoc.
Qed.

(** X11. When the file cannot be read, the run ends with the exception of
    the read, after the log line and the attempt on the file and nothing
    else: the clock is not read, no frame is made, the loader prints
    nothing. *)
Theorem main_read_failure clock read_csv p path e st :
  List.In p choices -> p <> "manual" -> path <> "" ->
  read_csv path = inl e ->
  main clock read_csv (Some path) (Some p) st
  = (Raises e,
     {| heap := heap st;
        trace := trace st ++
                 [Print ("Reading data from file: " ++ path); Open path];
        ticks := ticks st |}).
Proof.
  intros Hin Hp Hpath Hread.
  rewrite (main_file_run clock read_csv p path st Hin Hp Hpath).
  apply bind_raises.
  exact (prepare_dataframe_file_error read_csv path e st Hread).
Qed.

(** X12. An empty --source counts as none: with a payer other than manual
    the run ends with ValueError in the state it started in, without
    trying to open a file of that name. *)
Theorem main_empty_source clock read_csv p st :
  List.In p choices -> p <> "manual" ->
  main clock read_csv (Some "") (Some p) st
  = (Raises (ValueError "Source file path is required for file-based loading"),
     st).
Proof.
  intros Hin Hp.
  destruct (choices_file_payer p Hin Hp) as [-> | ->]; reflexivity.
Qed.


(** X14. When the frame of the file has no claim_amount column, or text in
    it, a run for anthem or cigna ends with the exception of the
    transformer: KeyError or TypeError. The file has been read and the
    copy made and stamped by then, and the loader prints nothing. *)
Theorem main_transform_failure clock read_csv p path df st :
  List.In p choices -> p <> "manual" -> path <> "" ->
  read_csv path = inr df ->
  let st' :=
    {| heap := heap st ++ [df; stamped df (clock (ticks st))];
       trace := trace st ++
                [Print ("Reading data from file: " ++ path); Open path];
       ticks := S (ticks st) |} in
  (get_column df "claim_amount" = None ->
   main clock read_csv (Some path) (Some p) st
   = (Raises (KeyError "claim_amount"), st')) /\
  (forall s,
      get_column df "claim_amount" = Some s ->
      Forall (fun x => Num.numeric x = true \/ Num.non_numeric x = true) s ->
      Exists (fun x => Num.non_numeric x = true) s ->
      exists msg,
        main clock read_csv (Some path) (Some p) st
        = (Raises (TypeError msg), st')).
Proof.
  intros Hin Hp Hpath Hread st'.
  rewrite (main_file_run clock read_csv p path st Hin Hp Hpath).
  rewrite (bind_returns _ _ _ _ _
             (prepare_dataframe_file_ok read_csv path df st Hread)).
  set (st1 := {| heap := heap st ++ [df]; trace := _; ticks := ticks st |}).
  assert (Hl : heap st1 !! length (heap st) = Some df) by apply lookup_fresh.
  assert (Hst' : after_stamp st1 df (clock (ticks st1)) = st').
  { unfold after_stamp, st', st1. simpl. now rewrite <- app_assoc. }
  destruct (payer_factor_billed p) as [k Hk].
  { destruct (choices_file_payer p Hin Hp) as [-> | ->]; auto. }
  pose proof (transform_data_run clock st1 _ df p Hl) as Hrun.
  rewrite Hk, Hst' in Hrun.
  split.
  - intros Hnone. rewrite Hnone in Hrun. apply bind_raises. exact Hrun.
  - intros s Hs Hall Hex. rewrite Hs in Hrun.
    destruct (Series_mul_non_numeric s k Hall Hex) as [msg Hmul].
    rewrite Hmul in Hrun. exists msg. apply bind_raises. exact Hrun.
Qed.

(** ** The driver, every run *)

Lemma main_no_source clock read_csv p src st :
  List.In p choices -> p <> "manual" -> truthy src = false ->
  main clock read_csv src (Some p) st
  = (Raises (ValueError "Source file path is required for file-based loading"),
     st).
Proof.
  intros Hin Hp Hsrc.
  destruct (choices_file_payer p Hin Hp) as [-> | ->];
    destruct src as [[|c path]|]; try discriminate; reflexivity.
Qed.

Ltac frames_and_events :=
  simpl; rewrite <- ?app_assoc; simpl;
  split;
  [ first [ exists []; split; [symmetry; apply app_nil_r | simpl; lia]
          | eexists; split; [reflexivity | simpl; lia] ] |];
  split;
  [ first [ exists []; symmetry; apply app_nil_r | eexists; reflexivity ] |];
  split; [simpl; lia|];
  split; [discriminate|];
  split;
  [ rewrite ?opened_app; simpl; rewrite ?app_nil_r;
    first [ left; reflexivity | right; eexists; split; reflexivity ] |];
  let Hr := fresh "Hr" in
  intros Hr;
  first [ discriminate Hr
        | split; [reflexivity | rewrite ?length_app; simpl; lia] ].

(** X15. Every run of main, whatever the command line and the file system
    and however it ends, only adds to the state: the frames that were on
    the heap are still there and at most two are added, the output so far
    is extended, the clock is read at most once, and at most one file is
    opened, the one named by --source. A run that succeeds has read the
    clock exactly once and added exactly two frames. *)
Theorem main_only_adds clock read_csv src payer_opt st r st' :
  main clock read_csv src payer_opt st = (r, st') ->
  (exists frames, heap st' = heap st ++ frames /\ length frames <= 2) /\
  (exists events, trace st' = trace st ++ events) /\
  ticks st <= ticks st' <= S (ticks st) /\
  r <> Stuck /\
  (opened (trace st') = opened (trace st) \/
   exists path,
     src = Some path /\ opened (trace st') = opened (trace st) ++ [path]) /\
  (r = Returns tt ->
   ticks st' = S (ticks st) /\ length (heap st') = length (heap st) + 2).
Proof.
  destruct payer_opt as [p|];
    [destruct (existsb (String.eqb p) choices) eqn:E|].
  - apply existsb_eqb_In in E.
    destruct (String.eqb_spec p "manual") as [-> | Hp].
    { rewrite main_manual_run. intros [= <- <-]. frames_and_events. }
    destruct (truthy src) eqn:Hsrc.
    2:{ rewrite (main_no_source clock read_csv p src st E Hp Hsrc).
        intros [= <- <-]. frames_and_events. }
    destruct src as [path|]; [|discriminate].
    assert (Hpath : path <> "") by (intros ->; discriminate).
    rewrite (main_file_run clock read_csv p path st E Hp Hpath).
    destruct (read_csv path) as [e|df] eqn:Hread.
    { rewrite (bind_raises _ _ _ _ _
                 (prepare_dataframe_file_error read_csv path e st Hread)).
      intros [= <- <-]. frames_and_events. }
    rewrite (bind_returns _ _ _ _ _
               (prepare_dataframe_file_ok read_csv path df st Hread)).
    set (st1 := {| heap := heap st ++ [df]; trace := _; ticks := ticks st |}).
    assert (Hl : heap st1 !! length (heap st) = Some df)
      by apply lookup_fresh.
    pose proof (transform_data_run clock st1 _ df p Hl) as Hrun.
    assert (Hload : forall out st2,
               heap st2 = heap st1 ++ [out] ->
               load (PayerLoader_init p) (length (heap st1)) st2
               = (Returns tt,
                  {| heap := heap st2;
                     trace := trace st2 ++
                       [Print ("Loading data into " ++
                               table_name (PayerLoader_init p));
                        Print ("Total rows: " ++ PyStr.of_nat (len out))];
                     ticks := ticks st2 |})).
    { intros out st2 Hheap. apply load_frame. rewrite Hheap.
      apply lookup_fresh. }
    destruct (payer_factor p) as [k|];
      [destruct (get_column df "claim_amount") as [s|];
       [destruct (Num.Series_mul s k) as [e|s']|]|].
    + rewrite (bind_raises _ _ _ _ _ Hrun).
      intros [= <- <-]. frames_and_events.
    + rewrite (bind_returns _ _ _ _ _ Hrun).
      erewrite Hload by reflexivity.
      intros [= <- <-]. frames_and_events.
    + rewrite (bind_raises _ _ _ _ _ Hrun).
      intros [= <- <-]. frames_and_events.
    + rewrite (bind_returns _ _ _ _ _ Hrun).
      erewrite Hload by reflexivity.
      intros [= <- <-]. frames_and_events.
  - unfold main, parse_args. rewrite E.
    intros [= <- <-]. frames_and_events.
  - intros [= <- <-]. frames_and_events.
Qed.

(** ** The loader and the frame *)

Lemma of_nat_inj m n : PyStr.of_nat m = PyStr.of_nat n -> m = n.
Proof.
  unfold PyStr.of_nat. intros H.
  apply DecimalNat.Unsigned.to_uint_inj.
  assert (Hs : Some (Nat.to_uint m) = Some (Nat.to_uint n)).
  { rewrite <- !NilEmpty.usu. now rewrite H. }
  congruence.
Qed.

(** X16. PayerLoader.load looks at the frame only for its number of rows,
    and the line it prints tells that number: for one loader, two frames
    give the same output exactly when they have the same number of
    rows. *)
Theorem load_depends_on_row_count (self : PayerLoader) st l1 l2 df1 df2 :
  heap st !! l1 = Some df1 ->
  heap st !! l2 = Some df2 ->
  (load self l1 st = load self l2 st <-> len df1 = len df2).
Proof.
  intros H1 H2.
  rewrite (load_frame self st l1 df1 H1), (load_frame self st l2 df2 H2).
  split.
  - intros [= Heq]. apply app_inv_head in Heq.
    injection Heq as Heq. now apply of_nat_inj.
  - now intros ->.
Qed.

(** X17. Loading only prints. The base loader prints its one line without
    looking at the frame; the payer loader, which overrides it, prints two
    lines of its own and never the line of the base loader. Neither
    changes the heap or reads the clock. *)
Theorem loaders_only_print (base : BaseLoader) (self : PayerLoader) st l df :
  heap st !! l = Some df ->
  load base l st
  = (Returns tt,
     {| heap := heap st; trace := trace st ++ [Print "Loading data..."];
        ticks := ticks st |}) /\
  exists first second,
    load self l st
    = (Returns tt,
       {| heap := heap st; trace := trace st ++ [Print first; Print second];
          ticks := ticks st |}) /\
    first <> "Loading data..." /\ second <> "Loading data...".
Proof.
  intros Hl. split; [reflexivity|].
  eexists _, _. split; [exact (load_frame self st l df Hl)|].
  unfold table_name.
  destruct (String.eqb (payer self) "anthem");
    [|destruct (String.eqb (payer self) "cigna")];
    split; discriminate.
Qed.

(** * Concrete runs of the further properties *)

Lemma prepare_dataframe_effects_witness :
  prepare_dataframe Fixture.one_file (PyString "claims.csv") Fixture.busy
  = (Returns 2,
     snd (prepare_dataframe Fixture.one_file (PyString "claims.csv")
            Fixture.busy)) /\
  opened (trace (snd (prepare_dataframe Fixture.one_file
                        (PyString "claims.csv") Fixture.busy)))
  = opened (trace Fixture.busy) ++ ["claims.csv"].
Proof.
  split; [reflexivity|].
  destruct (prepare_dataframe_effects Fixture.one_file
              (PyString "claims.csv") Fixture.busy (Returns 2)
              (snd (prepare_dataframe Fixture.one_file
                      (PyString "claims.csv") Fixture.busy)) eq_refl)
    as (_ & Hopened & _).
  exact Hopened.
Defined.


Lemma transform_data_effects_witness :
  heap (Sample.holding Sample.members) !! 0 = Some Sample.members /\
  transform_data Sample.clock 0 "anthem" (Sample.holding Sample.members)
  = (Raises (KeyError "claim_amount"),
     after_stamp (Sample.holding Sample.members) Sample.members 1000) /\
  trace (after_stamp (Sample.holding Sample.members) Sample.members 1000)
  = [] /\
  ticks (after_stamp (Sample.holding Sample.members) Sample.members 1000) = 1.
Proof.
  split; [reflexivity|]. split; [reflexivity|].
  destruct (transform_data_effects Sample.clock
              (Sample.holding Sample.members) 0 Sample.members "anthem"
              (Raises (KeyError "claim_amount"))
              (after_stamp (Sample.holding Sample.members) Sample.members
                 1000) eq_refl eq_refl)
    as (Htrace & Hticks & _).
  split; [exact Htrace | exact Hticks].
Defined.

Lemma transform_priced_amounts_are_floats_witness :
  heap (Sample.holding Sample.claims) !! 0 = Some Sample.claims /\
  get_column Sample.claims "claim_amount" = Some [VInt 500; VInt 800] /\
  exists df' s',
    heap (after_pricing (Sample.holding Sample.claims) Sample.claims 1000
            [VFloat 475; VFloat 760]) !! 1 = Some df' /\
    get_column df' "claim_amount" = Some s' /\
    length s' = 2 /\
    Forall (fun x => pd.is_float x = true) s'.
Proof.
  split; [reflexivity|]. split; [reflexivity|].
  apply (transform_priced_amounts_are_floats Sample.clock
           (Sample.holding Sample.claims) 0 Sample.claims
           [VInt 500; VInt 800] "cigna" 1
           (after_pricing (Sample.holding Sample.claims) Sample.claims 1000
              [VFloat 475; VFloat 760])).
  - reflexivity.
  - reflexivity.
  - right. reflexivity.
  - vm_compute. reflexivity.
Defined.

Lemma transform_keeps_missing_amounts_witness :
  cell (pd.DataFrame_of Fixture.uneven) "claim_amount" 1 = Some NaN /\
  exists df',
    heap (snd (transform_data Sample.clock 0 "anthem"
                 (Sample.holding (pd.DataFrame_of Fixture.uneven)))) !! 1
    = Some df' /\
    cell df' "claim_amount" 1 = Some NaN.
Proof.
  split; [vm_compute; reflexivity|].
  apply (transform_keeps_missing_amounts Sample.clock
           (Sample.holding (pd.DataFrame_of Fixture.uneven)) 0
           (pd.DataFrame_of Fixture.uneven) "anthem" 1
           (snd (transform_data Sample.clock 0 "anthem"
                   (Sample.holding (pd.DataFrame_of Fixture.uneven))))
           1).
  - reflexivity.
  - vm_compute. reflexivity.
  - vm_compute. reflexivity.
Defined.

Lemma transform_data_twice_witness :
  heap (Sample.holding Sample.claims) !! 0 = Some Sample.claims /\
  exists st2 out2,
    (let* once := transform_data Sample.clock 0 "anthem" in
     transform_data Sample.clock once "anthem") (Sample.holding Sample.claims)
    = (Returns 2, st2) /\
    ticks st2 = 2 /\
    get_column out2 "claim_amount"
    = Some (map (pricing_law "anthem")
              (map (pricing_law "anthem") [VInt 500; VInt 800])) /\
    get_column out2 "ingestion_timestamp"
    = Some [VTimestamp 1001; VTimestamp 1001].
Proof.
  split; [reflexivity|].
  destruct (transform_data_twice Sample.clock (Sample.holding Sample.claims)
              0 Sample.claims [VInt 500; VInt 800] "anthem" eq_refl eq_refl)
    as (st2 & out1 & out2 & Hrun & _ & Hticks & _ & Hamount & _ & Hstamp & _).
  { repeat constructor. }
  exists st2, out2. repeat split; assumption.
Defined.

Lemma transform_returns_iff_generic_witness :
  heap (Sample.holding Sample.members) !! 0 = Some Sample.members /\
  get_column Sample.members "claim_amount" = None /\
  (exists st',
      transform_data Sample.clock 0 "Cigna" (Sample.holding Sample.members)
      = (Raises (KeyError "claim_amount"), st')) /\
  exists l' st',
    transform_data Sample.clock 0 "other" (Sample.holding Sample.members)
    = (Returns l', st').
Proof.
  split; [reflexivity|]. split; [reflexivity|].
  destruct (transform_returns_iff_generic Sample.clock
              (Sample.holding Sample.members) 0 Sample.members "Cigna"
              eq_refl eq_refl) as [_ [Hraises _]].
  destruct (transform_returns_iff_generic Sample.clock
              (Sample.holding Sample.members) 0 Sample.members "other"
              eq_refl eq_refl) as [[Hreturns _] _].
  split; [apply Hraises; discriminate | apply Hreturns; reflexivity].
Defined.

Lemma list_pipeline_tolerates_missing_amounts_witness :
  exists st' df,
    (let* made := prepare_dataframe Sample.no_files (PyList Fixture.uneven) in
     transform_data Sample.clock made "cigna") Sample.empty_state
    = (Returns 1, st') /\
    heap st' !! 1 = Some df /\
    len df = 3 /\
    forall i r,
      Fixture.uneven !! i = Some r -> assoc "claim_amount" r = None ->
      cell df "claim_amount" i = Some NaN.
Proof.
  apply (list_pipeline_tolerates_missing_amounts Sample.clock Sample.no_files
           Fixture.uneven "cigna" Sample.empty_state).
  - exists [("member_id", VInt 1); ("claim_amount", VInt 500)].
    split; [left; reflexivity | right; left; reflexivity].
  - intros r v [<- | [<- | [<- | []]]]; simpl; intros [= <-]; reflexivity.
Defined.

Lemma main_file_success_witness :
  Fixture.one_file "claims.csv" = inr Sample.claims /\
  exists out,
    main Sample.clock Fixture.one_file (Some "claims.csv") (Some "anthem")
      Fixture.busy
    = (Returns tt,
       {| heap := [Sample.members; Sample.claims] ++ [Sample.claims; out];
          trace := [Print "earlier"] ++
                   [Print "Reading data from file: claims.csv";
                    Open "claims.csv";
                    Print "Loading data into SNOWFLAKE.RAW.ANTHEM_TABLE";
                    Print "Total rows: 2"];
          ticks := 4 |}) /\
    get_column out "claim_amount"
    = Some (map (pricing_law "anthem") [VInt 500; VInt 800]) /\
    get_column out "ingestion_timestamp"
    = Some [VTimestamp 1003; VTimestamp 1003].
Proof.
  split; [reflexivity|].
  apply (main_file_success Sample.clock Fixture.one_file "anthem"
           "claims.csv" Sample.claims [VInt 500; VInt 800] Fixture.busy).
  - left. reflexivity.
  - discriminate.
  - discriminate.
  - reflexivity.
  - reflexivity.
  - repeat constructor.
Defined.

Lemma main_read_failure_witness :
  Sample.no_files "claims.csv"
  = inl (OSError "No such file or directory: claims.csv") /\
  main Sample.clock Sample.no_files (Some "claims.csv") (Some "cigna")
    Fixture.busy
  = (Raises (OSError "No such file or directory: claims.csv"),
     {| heap := [Sample.members; Sample.claims];
        trace := [Print "earlier"] ++
                 [Print "Reading data from file: claims.csv";
                  Open "claims.csv"];
        ticks := 3 |}).
Proof.
  split; [reflexivity|].
  apply (main_read_failure Sample.clock Sample.no_files "cigna" "claims.csv"
           (OSError "No such file or directory: claims.csv") Fixture.busy).
  - right. left. reflexivity.
  - discriminate.
  - discriminate.
  - reflexivity.
Defined.

Lemma main_empty_source_witness :
  List.In "cigna" choices /\ "cigna" <> "manual" /\
  main Sample.clock Fixture.one_file (Some "") (Some "cigna") Fixture.busy
  = (Raises (ValueError "Source file path is required for file-based loading"),
     Fixture.busy).
Proof.
  split; [right; left; reflexivity|]. split; [discriminate|].
  apply (main_empty_source Sample.clock Fixture.one_file "cigna").
  - right. left. reflexivity.
  - discriminate.
Defined.


Lemma main_transform_failure_witness :
  Fixture.one_file "members.csv" = inr Sample.members /\
  get_column Sample.members "claim_amount" = None /\
  main Sample.clock Fixture.one_file (Some "members.csv") (Some "anthem")
    Sample.empty_state
  = (Raises (KeyError "claim_amount"),
     {| heap := [] ++ [Sample.members; stamped Sample.members 1000];
        trace := [] ++
                 [Print "Reading data from file: members.csv";
                  Open "members.csv"];
        ticks := 1 |}).
Proof.
  split; [reflexivity|]. split; [reflexivity|].
  destruct (main_transform_failure Sample.clock Fixture.one_file "anthem"
              "members.csv" Sample.members Sample.empty_state)
    as [Hkey _].
  - left. reflexivity.
  - discriminate.
  - discriminate.
  - reflexivity.
  - exact (Hkey eq_refl).
Defined.

Lemma main_only_adds_witness :
  main Sample.clock Fixture.one_file (Some "claims.csv") (Some "cigna")
    Fixture.busy
  = (Returns tt,
     snd (main Sample.clock Fixture.one_file (Some "claims.csv")
            (Some "cigna") Fixture.busy)) /\
  ticks (snd (main Sample.clock Fixture.one_file (Some "claims.csv")
                (Some "cigna") Fixture.busy)) = 4 /\
  length (heap (snd (main Sample.clock Fixture.one_file (Some "claims.csv")
                       (Some "cigna") Fixture.busy))) = 2 + 2.
Proof.
  split; [vm_compute; reflexivity|].
  destruct (main_only_adds Sample.clock Fixture.one_file (Some "claims.csv")
              (Some "cigna") Fixture.busy (Returns tt)
              (snd (main Sample.clock Fixture.one_file (Some "claims.csv")
                      (Some "cigna") Fixture.busy)))
    as (_ & _ & _ & _ & _ & Hdone).
  - vm_compute. reflexivity.
  - exact (Hdone eq_refl).
Defined.

Lemma load_depends_on_row_count_witness :
  heap Fixture.busy !! 0 = Some Sample.members /\
  heap Fixture.busy !! 1 = Some Sample.claims /\
  len Sample.members = len Sample.claims /\
  load (PayerLoader_init "anthem") 0 Fixture.busy
  = load (PayerLoader_init "anthem") 1 Fixture.busy.
Proof.
  split; [reflexivity|]. split; [reflexivity|]. split; [reflexivity|].
  apply (load_depends_on_row_count (PayerLoader_init "anthem") Fixture.busy
           0 1 Sample.members Sample.claims eq_refl eq_refl).
  reflexivity.
Defined.

Lemma loaders_only_print_witness :
  heap Fixture.busy !! 1 = Some Sample.claims /\
  load mkBaseLoader 1 Fixture.busy
  = (Returns tt,
     {| heap := [Sample.members; Sample.claims];
        trace := [Print "earlier"] ++ [Print "Loading data..."];
        ticks := 3 |}).
Proof.
  split; [reflexivity|].
  destruct (loaders_only_print mkBaseLoader (PayerLoader_init "manual")
              Fixture.busy 1 Sample.claims eq_refl) as [Hbase _].
  exact Hbase.
Defined.
